(** * Inventory store ([corrected_code.py]): a shallow embedding

    The module keeps one process-wide dictionary [stock_data] from item
    names to integer quantities, mutates it through [add_item] and
    [remove_item], queries it through [get_qty], [check_low_items] and
    [print_data], and persists it through [save_data] and [load_data].

    The embedding follows the Python text function by function:
    - a Python [dict] is an association list in insertion order;
    - arguments are dynamically typed values ([pyval]), so the
      [isinstance] guards of the source are real tests;
    - every function is a computation in a state-and-exception monad
      over a [world]: the global [stock_data], the file system and the
      records handed to [logging].  A raised exception keeps whatever
      was mutated before it, as in Python. *)

From Stdlib Require Import ZArith List String Ascii Bool Lia SpecFloat.
From stdpp Require Import base option gmap strings.
Import ListNotations.
Local Open Scope string_scope.
Local Open Scope list_scope.
Local Open Scope Z_scope.
Local Set Warnings "-register-all".

(** ** Python dictionaries *)

(** A [dict] with [str] keys: the entries in insertion order.  A
    dictionary never holds a key twice ([Dict.wf]); every operation below
    keeps it so. *)
Module Dict.
Section Ops.
Context {V : Type}.

Definition t := list (string * V).

Definition empty : t := [].

(** [d.get(k)] / [d[k]] *)
Fixpoint get (d : t) (k : string) : option V :=
  match d with
  | [] => None
  | (k', v) :: d' => if String.eqb k' k then Some v else get d' k
  end.

(** [k in d] *)
Definition mem (d : t) (k : string) : bool :=
  match get d k with Some _ => true | None => false end.

(** [d[k] = v]: an existing key keeps its position, a new key goes last. *)
Fixpoint set (d : t) (k : string) (v : V) : t :=
  match d with
  | [] => [(k, v)]
  | (k', v') :: d' =>
      if String.eqb k' k then (k', v) :: d' else (k', v') :: set d' k v
  end.

(** [del d[k]] (the caller has checked [k in d]) *)
Definition del (d : t) (k : string) : t :=
  List.filter (fun kv => negb (String.eqb (fst kv) k)) d.

(** [d.update(other)] *)
Definition update (d other : t) : t :=
  fold_left (fun acc kv => set acc (fst kv) (snd kv)) other d.

(** [dict(pairs)] *)
Definition of_pairs (pairs : list (string * V)) : t := update empty pairs.

(** [d.items()] and [d.keys()], in iteration order *)
Definition items (d : t) : list (string * V) := d.
Definition keys (d : t) : list string := map fst d.

Fixpoint nodup_keys (ks : list string) : bool :=
  match ks with
  | [] => true
  | k :: ks' => negb (existsb (String.eqb k) ks') && nodup_keys ks'
  end.

Definition wf (d : t) : Prop := nodup_keys (keys d) = true.
End Ops.
Arguments t : clear implicits.
End Dict.

(** ** Python values *)

(** The values that reach the module: what a caller can pass, and what
    [json.load] can return.  A float is an IEEE 754 double ([spec_float]). *)
Inductive pyval :=
| PyNone
| PyBool (b : bool)
| PyInt (z : Z)
| PyFloat (f : spec_float)
| PyStr (s : string)
| PyList (l : list pyval)
| PyDict (d : list (string * pyval)).

(** Exception classes that the module raises or lets through. *)
Inductive exn :=
| TypeError
| ValueError
| KeyError
| OverflowError
| OSError
| FileNotFoundError
| JSONDecodeError
| UnicodeDecodeError.

Definition exn_eqb (a b : exn) : bool :=
  match a, b with
  | TypeError, TypeError | ValueError, ValueError | KeyError, KeyError
  | OverflowError, OverflowError | OSError, OSError
  | FileNotFoundError, FileNotFoundError
  | JSONDecodeError, JSONDecodeError
  | UnicodeDecodeError, UnicodeDecodeError => true
  | _, _ => false
  end.

(** [isinstance(e, cls)] on exceptions: [FileNotFoundError] derives from
    [OSError], [json.JSONDecodeError] and [UnicodeDecodeError] from
    [ValueError]. *)
Definition exn_isinstance (e cls : exn) : bool :=
  match e, cls with
  | FileNotFoundError, OSError => true
  | JSONDecodeError, ValueError => true
  | UnicodeDecodeError, ValueError => true
  | _, _ => exn_eqb e cls
  end.

(** [isinstance(v, str)] and [isinstance(v, int)] ([bool] is a subclass of
    [int]: [True] counts as [1]). *)
Definition as_str (v : pyval) : option string :=
  match v with PyStr s => Some s | _ => None end.

Definition as_int (v : pyval) : option Z :=
  match v with
  | PyInt z => Some z
  | PyBool b => Some (Z.b2z b)
  | _ => None
  end.

(** *** The builtin [int(v)] *)

Definition is_space (c : ascii) : bool :=
  let n := N_of_ascii c in ((9 <=? n) && (n <=? 13) || (n =? 32))%N.

Definition digit_of (c : ascii) : option Z :=
  let n := Z.of_N (N_of_ascii c) in
  if (48 <=? n) && (n <=? 57) then Some (n - 48) else None.

Fixpoint lstrip (s : string) : string :=
  match s with
  | String c s' => if is_space c then lstrip s' else s
  | EmptyString => s
  end.

Fixpoint all_space (s : string) : bool :=
  match s with
  | String c s' => is_space c && all_space s'
  | EmptyString => true
  end.

(** Digits after the first one: more digits, single underscores between
    digits, then only white space. *)
Fixpoint int_digits (acc : Z) (s : string) : option Z :=
  match s with
  | EmptyString => Some acc
  | String c s' =>
      match digit_of c with
      | Some d => int_digits (10 * acc + d) s'
      | None =>
          if Ascii.eqb c "_" then
            match s' with
            | String c' s'' =>
                match digit_of c' with
                | Some d => int_digits (10 * acc + d) s''
                | None => None
                end
            | EmptyString => None
            end
          else if all_space s then Some acc else None
      end
  end.

Definition int_unsigned (s : string) : option Z :=
  match s with
  | String c s' =>
      match digit_of c with
      | Some d => int_digits d s'
      | None => None
      end
  | EmptyString => None
  end.

(** [int(s)] for a string of ASCII characters, base 10: white space on
    both sides, an optional sign, digits with single underscores.
    Integers are unbounded; the limit that recent interpreters put on the
    number of digits of a conversion is left out.  Beyond ASCII, [int]
    also reads the other decimal digits and spaces of Unicode, which this
    function does not: what is said of [int] on a string holds for the
    strings of [ascii_string]. *)
Definition int_of_str (s : string) : option Z :=
  match lstrip s with
  | String "-" s' => Z.opp <$> int_unsigned s'
  | String "+" s' => int_unsigned s'
  | s' => int_unsigned s'
  end.

(** [int(f)] truncates a finite float towards zero; a NaN is a
    [ValueError], an infinity an [OverflowError]. *)
Definition int_of_float (f : spec_float) : exn + Z :=
  match f with
  | S754_zero _ => inr 0
  | S754_infinity _ => inl OverflowError
  | S754_nan => inl ValueError
  | S754_finite s m e =>
      let a := if 0 <=? e then Z.pos m * 2 ^ e else Z.pos m / 2 ^ (- e) in
      inr (if s then - a else a)
  end.

Definition py_int (v : pyval) : exn + Z :=
  match v with
  | PyInt z => inr z
  | PyBool b => inr (Z.b2z b)
  | PyFloat f => int_of_float f
  | PyStr s =>
      match int_of_str s with
      | Some z => inr z
      | None => inl ValueError
      end
  | PyNone | PyList _ | PyDict _ => inl TypeError
  end.

(** ** JSON documents and the file system *)

(** A JSON text as the decoder of the [json] package sees it: number
    literals already read ([int] for an integer literal, [float] for one
    with a fraction or an exponent, infinite when out of range), objects
    as the sequence of their members. *)
Inductive json :=
| JNull
| JBool (b : bool)
| JInt (z : Z)
| JFloat (f : spec_float)
| JString (s : string)
| JArray (l : list json)
| JObject (members : list (string * json)).

(** What [json.load] builds from a document: an object becomes a [dict],
    filled member by member. *)
Fixpoint json_decode (j : json) : pyval :=
  match j with
  | JNull => PyNone
  | JBool b => PyBool b
  | JInt z => PyInt z
  | JFloat f => PyFloat f
  | JString s => PyStr s
  | JArray l => PyList (map json_decode l)
  | JObject ms =>
      PyDict (Dict.of_pairs (map (fun kv => (fst kv, json_decode (snd kv))) ms))
  end.

(** What [json.dump] writes for a [Dict[str, int]].  The characters of
    the text (indentation, escapes) are left to the package: the model
    keeps the document that the text denotes, which is what [json.load]
    reads back from it. *)
Definition json_encode (d : Dict.t Z) : json :=
  JObject (map (fun kv => (fst kv, JInt (snd kv))) (Dict.items d)).

(** What a file holds: a JSON text; a text that is not JSON but that
    the decoder accepts all the same, because it differs from one only by
    the constants [NaN], [Infinity] and [-Infinity]; a text that the
    decoder rejects; or bytes that are not text in UTF-8. *)
Inductive text :=
| Json (j : json)
| Lenient (j : json)
| Malformed
| Undecodable.

(** The files that can be read, and the paths that cannot be opened for
    writing (no permission, no such directory, the empty path...).
    Directories and files that the process may not read are not part of
    the file system: opening for reading fails on a path without a file
    only. *)
Record filesystem := {
  files : gmap string text;
  unwritable : gset string
}.

(** ** Logging *)

Inductive level := INFO | WARNING | ERROR.

(** The messages of the module, without their time stamps. *)
Inductive message :=
| Added (qty : pyval) (item : string)
| Removed (qty : Z) (item : string)
| RemovedDepleted (qty : Z) (item : string)
| SkippingItem (key : string) (v : pyval)
| LoadedFrom (file : string)
| FileNotFound (file : string)
| ParseFailed (file : string)
| SavedTo (file : string)
| SaveFailed (file : string)
| ItemsReport
| ReportLine (name : string) (qty : Z)
| TriedMissing (item : string)
| AppleStock (qty : Z)
| LowItems (names : list string).

(** ** The world and the monad *)

Record world := {
  stock_data : Dict.t Z;
  fs : filesystem;
  log : list (level * message)
}.

Definition with_stock (d : Dict.t Z) (w : world) : world :=
  {| stock_data := d; fs := fs w; log := log w |}.

Definition with_fs (f : filesystem) (w : world) : world :=
  {| stock_data := stock_data w; fs := f; log := log w |}.

Definition with_log (l : list (level * message)) (w : world) : world :=
  {| stock_data := stock_data w; fs := fs w; log := l |}.

Inductive outcome (A : Type) :=
| Return (a : A)
| Raise (e : exn).
Arguments Return {A} a.
Arguments Raise {A} e.

Definition M (A : Type) : Type := world -> outcome A * world.

Definition ret {A} (a : A) : M A := fun w => (Return a, w).

Definition raise {A} (e : exn) : M A := fun w => (Raise e, w).

Definition bind {A B} (m : M A) (k : A -> M B) : M B :=
  fun w =>
    match m w with
    | (Return a, w') => k a w'
    | (Raise e, w') => (Raise e, w')
    end.

Declare Scope py_scope.
Delimit Scope py_scope with py.
Notation "x <- m ;; k" := (bind m (fun x => k))
  (at level 100, m at next level, right associativity) : py_scope.
Notation "m ;; k" := (bind m (fun _ => k))
  (at level 100, right associativity) : py_scope.
Local Open Scope py_scope.

(** A pure call that may raise. *)
Definition lift {A} (r : exn + A) : M A :=
  match r with
  | inr a => ret a
  | inl e => raise e
  end.

(** [try: body  except classes_1: h_1  except classes_2: h_2 ...]: the
    first clause naming a class of the exception handles it; with none,
    the exception propagates. *)
Fixpoint select_handler {A} (e : exn)
    (clauses : list (list exn * (exn -> M A))) : option (M A) :=
  match clauses with
  | [] => None
  | (classes, h) :: rest =>
      if existsb (exn_isinstance e) classes then Some (h e)
      else select_handler e rest
  end.

Definition try_except {A} (body : M A)
    (clauses : list (list exn * (exn -> M A))) : M A :=
  fun w =>
    match body w with
    | (Return a, w') => (Return a, w')
    | (Raise e, w') =>
        match select_handler e clauses with
        | Some h => h w'
        | None => (Raise e, w')
        end
    end.

(** [for x in xs: body], threading the local variables [s] of the loop. *)
Fixpoint for_each {A S} (xs : list A) (body : A -> S -> M S) (s : S) : M S :=
  match xs with
  | [] => ret s
  | x :: xs' => s' <- body x s ;; for_each xs' body s'
  end.

Definition get_stock : M (Dict.t Z) := fun w => (Return (stock_data w), w).

Definition put_stock (d : Dict.t Z) : M unit :=
  fun w => (Return tt, with_stock d w).

Definition logging (lv : level) (msg : message) : M unit :=
  fun w => (Return tt, with_log (log w ++ [(lv, msg)]) w).

(** [with open(file, "r", encoding="utf-8") as f: json.load(f)] *)
Definition read_json (file : string) : M pyval :=
  fun w =>
    match files (fs w) !! file with
    | None => (Raise FileNotFoundError, w)
    | Some Undecodable => (Raise UnicodeDecodeError, w)
    | Some Malformed => (Raise JSONDecodeError, w)
    | Some (Json j) | Some (Lenient j) => (Return (json_decode j), w)
    end.

(** [with open(file, "w") as f: json.dump(d, f, indent=2)] *)
Definition write_json (file : string) (d : Dict.t Z) : M unit :=
  fun w =>
    if decide (file ∈ unwritable (fs w)) then (Raise OSError, w)
    else
      (Return tt,
       with_fs {| files := <[file := Json (json_encode d)]> (files (fs w));
                  unwritable := unwritable (fs w) |} w).

(** ** The functions of the module *)

Definition default_file : string := "inventory.json".

(** [stock_data.clear()] and [stock_data.update(other)]: the global
    dictionary is mutated in place. *)
Definition stock_clear : M unit := put_stock Dict.empty.

Definition stock_update (other : Dict.t Z) : M unit :=
  d <- get_stock ;; put_stock (Dict.update d other).

(** [add_item(item, qty=0, logs=None)].  The list [logs] of the caller is
    mutated by [append]; it is returned here. *)
Definition add_item (item : pyval) (qty : option pyval)
    (logs : option (list message)) : M (list message) :=
  let qty := default (PyInt 0) qty in
  let logs := default [] logs in
  match as_str item with
  | None | Some EmptyString => raise TypeError
  | Some name =>
      match as_int qty with
      | None => raise TypeError
      | Some n =>
          if n <? 0 then raise ValueError
          else
            d <- get_stock ;;
            put_stock (Dict.set d name (default 0 (Dict.get d name) + n)) ;;
            let entry := Added qty name in
            let logs := logs ++ [entry] in
            logging INFO entry ;;
            ret logs
      end
  end.

(** [remove_item(item, qty)] *)
Definition remove_item (item qty : pyval) : M unit :=
  match as_str item with
  | None | Some EmptyString => raise TypeError
  | Some name =>
      match as_int qty with
      | None => raise TypeError
      | Some n =>
          if n <=? 0 then raise ValueError
          else
            d <- get_stock ;;
            match Dict.get d name with
            | None => raise KeyError
            | Some q =>
                let remaining := q - n in
                if 0 <? remaining then
                  put_stock (Dict.set d name remaining) ;;
                  logging INFO (Removed n name)
                else
                  put_stock (Dict.del d name) ;;
                  logging INFO (RemovedDepleted n name)
            end
      end
  end.

(** [get_qty(item)] *)
Definition get_qty (item : pyval) : M Z :=
  match as_str item with
  | None | Some EmptyString => raise TypeError
  | Some name => d <- get_stock ;; ret (default 0 (Dict.get d name))
  end.

(** The body of the loop of [load_data]: [normalized[key] = int(v)], or a
    warning when [int] raises [TypeError] or [ValueError].  The keys of a
    decoded JSON object are strings, so [str(k)] is [k]. *)
Definition load_entry (kv : string * pyval) (normalized : Dict.t Z)
    : M (Dict.t Z) :=
  let key := fst kv in
  let v := snd kv in
  try_except
    (n <- lift (py_int v) ;; ret (Dict.set normalized key n))
    [([TypeError; ValueError],
      fun _ => logging WARNING (SkippingItem key v) ;; ret normalized)].

(** [load_data(file="inventory.json")] *)
Definition load_data (file : option string) : M unit :=
  let file := default default_file file in
  try_except
    (data <- read_json file ;;
     match data with
     | PyDict d =>
         normalized <- for_each (Dict.items d) load_entry Dict.empty ;;
         stock_clear ;;
         stock_update normalized ;;
         logging INFO (LoadedFrom file)
     | _ => raise ValueError
     end)
    [([FileNotFoundError],
      fun _ => logging WARNING (FileNotFound file) ;; stock_clear);
     ([JSONDecodeError],
      fun err => logging ERROR (ParseFailed file) ;; raise err)].

(** [save_data(file="inventory.json")] *)
Definition save_data (file : option string) : M unit :=
  let file := default default_file file in
  try_except
    (d <- get_stock ;;
     write_json file d ;;
     logging INFO (SavedTo file))
    [([OSError], fun err => logging ERROR (SaveFailed file) ;; raise err)].

(** [print_data()] *)
Definition print_data : M unit :=
  logging INFO ItemsReport ;;
  d <- get_stock ;;
  for_each (Dict.items d)
    (fun kv _ => logging INFO (ReportLine (fst kv) (snd kv))) tt.

(** [check_low_items(threshold=5)]: the comprehension
    [[name for name, qty in stock_data.items() if qty < threshold]]. *)
Definition check_low_items (threshold : option pyval) : M (list string) :=
  let threshold := default (PyInt 5) threshold in
  match as_int threshold with
  | None => raise TypeError
  | Some t =>
      d <- get_stock ;;
      ret (flat_map (fun kv => if snd kv <? t then [fst kv] else [])
             (Dict.items d))
  end.

(** [main()], the demonstration.  (The guard at the end of the file
    compares [__name__] with ["_main_"], so nothing runs on import.) *)
Definition main : M unit :=
  add_item (PyStr "apple") (Some (PyInt 10)) None ;;
  add_item (PyStr "banana") (Some (PyInt 2)) None ;;
  remove_item (PyStr "apple") (PyInt 3) ;;
  try_except
    (remove_item (PyStr "orange") (PyInt 1))
    [([KeyError], fun _ => logging INFO (TriedMissing "orange"))] ;;
  q <- get_qty (PyStr "apple") ;;
  logging INFO (AppleStock q) ;;
  low <- check_low_items None ;;
  logging INFO (LowItems low) ;;
  save_data None ;;
  load_data None ;;
  print_data.

(** The start of a process: an empty store, nothing logged yet. *)
Definition initial (fs0 : filesystem) : world :=
  {| stock_data := Dict.empty; fs := fs0; log := [] |}.

Definition no_files : filesystem := {| files := ∅; unwritable := ∅ |}.

(** ** The vocabulary of the specification *)

(** The error taxonomy of the specification, by exception class:
    InvalidArgument is a [TypeError] or a plain [ValueError] of the
    argument checks, NotFound the [KeyError] of [remove_item], ParseError
    the [json.JSONDecodeError] of [load_data], an I/O failure an
    [OSError] or a file that cannot be decoded. *)
Inductive error_kind :=
| InvalidArgument
| NotFound
| ParseError
| IOFailure
| Unclassified.

Definition error_kind_of (e : exn) : error_kind :=
  match e with
  | TypeError | ValueError => InvalidArgument
  | KeyError => NotFound
  | JSONDecodeError => ParseError
  | OSError | FileNotFoundError | UnicodeDecodeError => IOFailure
  | OverflowError => Unclassified
  end.

(** The mutating operations of the store, as a caller issues them. *)
Inductive call :=
| CallAdd (item : pyval) (qty : option pyval) (logs : option (list message))
| CallRemove (item qty : pyval)
| CallSave (file : option string)
| CallLoad (file : option string).

Definition run (c : call) : M unit :=
  match c with
  | CallAdd item qty logs => add_item item qty logs ;; ret tt
  | CallRemove item qty => remove_item item qty
  | CallSave file => save_data file
  | CallLoad file => load_data file
  end.

(** The worlds reached from [w0] by calls that all return normally. *)
Inductive reachable (w0 : world) : world -> Prop :=
| reach_start : reachable w0 w0
| reach_call c w w' :
    reachable w0 w -> run c w = (Return tt, w') -> reachable w0 w'.

(** Every stored quantity is above [lo], in every world reached from the
    empty store on the file system [fs0]. *)
Definition quantities_above (lo : Z) (fs0 : filesystem) : Prop :=
  forall w, reachable (initial fs0) w ->
  forall k q, In (k, q) (Dict.items (stock_data w)) -> lo < q.

(** The names that [check_low_items] is to return: the keys, in iteration
    order, whose stored quantity is below the threshold. *)
Definition below (d : Dict.t Z) (t : Z) (name : string) : bool :=
  match Dict.get d name with
  | Some q => q <? t
  | None => false
  end.

(** The report lines that [print_data] emitted in a log. *)
Definition reported (name : string) (l : list (level * message)) : Prop :=
  exists lv q, In (lv, ReportLine name q) l.

(** No quantity of the dictionary is negative. *)
Definition nonneg (d : Dict.t Z) : Prop := Forall (fun kv => 0 <= snd kv) d.

(** Every file is one that [save_data] wrote, for a dictionary without a
    negative quantity. *)
Definition saved_files (f : filesystem) : Prop :=
  forall p t, files f !! p = Some t ->
  exists d, t = Json (json_encode d) /\ Dict.wf d /\ nonneg d.

(** The invariant of a store that only ever loads what it saved. *)
Definition store_inv (w : world) : Prop :=
  Dict.wf (stock_data w) /\ nonneg (stock_data w) /\ saved_files (fs w).

(** The entries of a decoded object that [int] accepts, assigned in
    order to [acc], and the warnings for the entries that [int] refuses. *)
Fixpoint coerced (entries : list (string * pyval)) (acc : Dict.t Z) : Dict.t Z :=
  match entries with
  | [] => acc
  | (k, v) :: rest =>
      match py_int v with
      | inr n => coerced rest (Dict.set acc k n)
      | inl _ => coerced rest acc
      end
  end.

Fixpoint skipped (entries : list (string * pyval)) : list (level * message) :=
  match entries with
  | [] => []
  | (k, v) :: rest =>
      match py_int v with
      | inr _ => skipped rest
      | inl _ => (WARNING, SkippingItem k v) :: skipped rest
      end
  end.

(** No value of the entries is an infinite float. *)
Definition finite_values (entries : list (string * pyval)) : Prop :=
  Forall (fun kv => py_int (snd kv) <> inl OverflowError) entries.

(** Every key of the dictionary is a non-empty name. *)
Definition named (d : Dict.t Z) : Prop := Forall (fun kv => fst kv <> "") d.

(** Every file is one that [save_data] wrote, for a dictionary of
    non-empty names. *)
Definition named_files (f : filesystem) : Prop :=
  forall p t, files f !! p = Some t ->
  exists d, t = Json (json_encode d) /\ Dict.wf d /\ named d.

Definition names_inv (w : world) : Prop :=
  Dict.wf (stock_data w) /\ named (stock_data w) /\ named_files (fs w).

(** What [load_data] is to store under a key of a decoded object: the
    [int] of its value, when there is one. *)
Definition coerced_get (entries : list (string * pyval)) (k : string)
    : option Z :=
  match Dict.get entries k with
  | Some v =>
      match py_int v with
      | inr n => Some n
      | inl _ => None
      end
  | None => None
  end.

(** A text that is not syntactically valid JSON. *)
Definition not_json (t : text) : bool :=
  match t with
  | Lenient _ | Malformed => true
  | Json _ | Undecodable => false
  end.

(** The strings on which [int_of_str] is [int]: ASCII characters only. *)
Fixpoint ascii_string (s : string) : bool :=
  match s with
  | EmptyString => true
  | String c s' => (N_of_ascii c <? 128)%N && ascii_string s'
  end.

(** Every string among the values of the entries is ASCII. *)
Definition ascii_values (entries : list (string * pyval)) : Prop :=
  Forall (fun kv => match snd kv with
                    | PyStr s => ascii_string s = true
                    | _ => True
                    end) entries.

(** * Properties *)

(** ** Dictionaries *)

Module DictFacts.
Section Facts.
Context {V : Type}.
Implicit Types (d : Dict.t V) (k : string) (v : V).

Lemma get_set_eq d k v : Dict.get (Dict.set d k v) k = Some v.
Proof.
  induction d as [|[k' v'] d IH]; simpl.
  - now rewrite String.eqb_refl.
  - destruct (String.eqb k' k) eqn:E; simpl; rewrite E; auto.
Qed.

Lemma get_set_ne d k k' v :
  k <> k' -> Dict.get (Dict.set d k v) k' = Dict.get d k'.
Proof.
  intros Hne. induction d as [|[k0 v0] d IH]; simpl.
  - apply String.eqb_neq in Hne. now rewrite Hne.
  - destruct (String.eqb k0 k) eqn:E; simpl.
    + apply String.eqb_eq in E. subst k0.
      apply String.eqb_neq in Hne. now rewrite Hne.
    + now rewrite IH.
Qed.

Lemma get_del_eq d k : Dict.get (Dict.del d k) k = None.
Proof.
  induction d as [|[k' v'] d IH]; simpl; auto.
  destruct (String.eqb k' k) eqn:E; simpl; auto. now rewrite E.
Qed.

Lemma get_del_ne d k k' :
  k <> k' -> Dict.get (Dict.del d k) k' = Dict.get d k'.
Proof.
  intros Hne. induction d as [|[k0 v0] d IH]; simpl; auto.
  destruct (String.eqb k0 k) eqn:E; simpl.
  - apply String.eqb_eq in E. subst k0.
    apply String.eqb_neq in Hne. now rewrite Hne.
  - now rewrite IH.
Qed.

Lemma get_In d k v : Dict.get d k = Some v -> In (k, v) d.
Proof.
  induction d as [|[k' v'] d IH]; simpl; [discriminate|].
  destruct (String.eqb_spec k' k) as [->|Hne]; intros H.
  - left. congruence.
  - right. auto.
Qed.

Lemma get_None_keys d k : Dict.get d k = None <-> ~ In k (Dict.keys d).
Proof.
  induction d as [|[k' v'] d IH]; simpl; [tauto|].
  destruct (String.eqb_spec k' k) as [->|Hne].
  - split; [discriminate | tauto].
  - rewrite IH. tauto.
Qed.

Lemma In_keys d k v : In (k, v) d -> In k (Dict.keys d).
Proof. intros H. apply (in_map fst) in H. exact H. Qed.

Lemma nodup_keys_NoDup (ks : list string) :
  Dict.nodup_keys ks = true <-> List.NoDup ks.
Proof.
  induction ks as [|k ks IH]; simpl.
  - split; [constructor | reflexivity].
  - rewrite andb_true_iff, negb_true_iff, IH. split.
    + intros [Hk Hnd]. constructor; [|exact Hnd].
      intros Hin. assert (existsb (String.eqb k) ks = true) as E.
      { apply existsb_exists. exists k. split; [exact Hin|].
        apply String.eqb_refl. }
      congruence.
    + intros Hnd. inversion Hnd as [|? ? Hk Hnd']; subst. split; [|exact Hnd'].
      destruct (existsb (String.eqb k) ks) eqn:E; [|reflexivity].
      apply existsb_exists in E. destruct E as [k' [Hin Heq]].
      apply String.eqb_eq in Heq. subst k'. contradiction.
Qed.

Lemma wf_NoDup d : Dict.wf d <-> List.NoDup (Dict.keys d).
Proof. apply nodup_keys_NoDup. Qed.

(** In a dictionary, the entry of a key is what [get] finds. *)
Lemma In_get d k v : Dict.wf d -> In (k, v) d -> Dict.get d k = Some v.
Proof.
  rewrite wf_NoDup. induction d as [|[k' v'] d IH]; simpl; [tauto|].
  intros Hnd [Heq|Hin]; inversion Hnd as [|? ? Hk Hnd']; subst.
  - inversion Heq; subst. now rewrite String.eqb_refl.
  - destruct (String.eqb_spec k' k) as [->|Hne]; [|auto].
    exfalso. apply Hk. eapply In_keys; eauto.
Qed.

(** Assigning to a new key appends the entry. *)
Lemma set_fresh d k v : ~ In k (Dict.keys d) -> Dict.set d k v = d ++ [(k, v)].
Proof.
  induction d as [|[k' v'] d IH]; simpl; [reflexivity|].
  intros Hk. destruct (String.eqb_spec k' k) as [->|Hne]; [tauto|].
  f_equal. apply IH. tauto.
Qed.

(** Assigning to a key keeps the keys in place, or adds the key last. *)
Lemma keys_set d k v :
  Dict.keys (Dict.set d k v) =
  if Dict.mem d k then Dict.keys d else Dict.keys d ++ [k].
Proof.
  unfold Dict.mem. induction d as [|[k' v'] d IH]; simpl; [reflexivity|].
  destruct (String.eqb_spec k' k) as [->|Hne]; simpl; [reflexivity|].
  rewrite IH. now destruct (Dict.get d k).
Qed.

Lemma wf_empty : Dict.wf (@Dict.empty V).
Proof. reflexivity. Qed.

Lemma wf_set d k v : Dict.wf d -> Dict.wf (Dict.set d k v).
Proof.
  rewrite !wf_NoDup, keys_set. unfold Dict.mem.
  destruct (Dict.get d k) eqn:E; [tauto|].
  intros Hnd. apply List.NoDup_app; [exact Hnd | repeat constructor; simpl; tauto |].
  intros x Hx [<-|[]]. apply get_None_keys in E. tauto.
Qed.

Lemma wf_del d k : Dict.wf d -> Dict.wf (Dict.del d k).
Proof.
  rewrite !wf_NoDup. unfold Dict.del, Dict.keys.
  induction d as [|[k' v'] d IH]; simpl; [tauto|].
  intros Hnd. inversion Hnd as [|? ? Hk Hnd']; subst.
  destruct (negb (String.eqb k' k)); simpl; [|auto].
  constructor; [|auto]. intros Hin. apply Hk.
  apply in_map_iff in Hin. destruct Hin as [[k0 v0] [Heq Hin]].
  apply filter_In in Hin. apply in_map_iff. exists (k0, v0). tauto.
Qed.

Lemma wf_update d other : Dict.wf d -> Dict.wf (Dict.update d other).
Proof.
  unfold Dict.update. revert d.
  induction other as [|[k v] other IH]; simpl; intros d Hd; [exact Hd|].
  apply IH, wf_set, Hd.
Qed.

(** Updating with a dictionary whose keys are all new appends it. *)
Lemma update_fresh d other :
  Dict.wf other ->
  (forall k, In k (Dict.keys other) -> ~ In k (Dict.keys d)) ->
  Dict.update d other = d ++ other.
Proof.
  unfold Dict.update. rewrite wf_NoDup. revert d.
  induction other as [|[k v] other IH]; simpl; intros d Hnd Hnew.
  - now rewrite app_nil_r.
  - inversion Hnd as [|? ? Hk Hnd']; subst.
    rewrite set_fresh by (apply Hnew; now left).
    rewrite IH; [now rewrite <- app_assoc | exact Hnd' |].
    intros k' Hk'. unfold Dict.keys. rewrite map_app, in_app_iff. simpl.
    intros [Hin|[<-|[]]]; [|contradiction].
    apply (Hnew k'); [now right | exact Hin].
Qed.

Lemma update_empty d : Dict.wf d -> Dict.update Dict.empty d = d.
Proof. intros Hd. rewrite update_fresh; auto. Qed.

Lemma of_pairs_wf (pairs : list (string * V)) : Dict.wf (Dict.of_pairs pairs).
Proof. apply wf_update, wf_empty. Qed.

(** A property of all values survives assignment and deletion. *)
Lemma Forall_set (P : V -> Prop) d k v :
  Forall (fun kv => P (snd kv)) d -> P v ->
  Forall (fun kv => P (snd kv)) (Dict.set d k v).
Proof.
  intros Hd Hv. induction Hd as [|[k' v'] d Hx Hd IH]; simpl.
  - repeat constructor. exact Hv.
  - destruct (String.eqb k' k); constructor; auto.
Qed.

Lemma Forall_del (P : V -> Prop) d k :
  Forall (fun kv => P (snd kv)) d ->
  Forall (fun kv => P (snd kv)) (Dict.del d k).
Proof.
  intros Hd. induction Hd as [|[k' v'] d Hx Hd IH]; simpl; [constructor|].
  destruct (negb (String.eqb k' k)); [constructor|]; auto.
Qed.

End Facts.
End DictFacts.

(** ** Queries *)

Section Queries.
Implicit Types (d : Dict.t Z) (w : world).

(** The names that the comprehension of [check_low_items] collects. *)
Lemma low_names_In d t name :
  In name (flat_map (fun kv => if snd kv <? t then [fst kv] else []) d) <->
  exists q, In (name, q) d /\ q < t.
Proof.
  rewrite in_flat_map. split.
  - intros [[k q] [Hin Hk]]. simpl in Hk.
    destruct (Z.ltb_spec q t) as [Hlt|Hge]; [|destruct Hk].
    destruct Hk as [<-|[]]. eauto.
  - intros [q [Hin Hlt]]. exists (name, q). split; [exact Hin|]. simpl.
    apply Z.ltb_lt in Hlt. rewrite Hlt. now left.
Qed.

Lemma low_names_keys d t name :
  In name (flat_map (fun kv => if snd kv <? t then [fst kv] else []) d) ->
  In name (Dict.keys d).
Proof.
  rewrite low_names_In. intros [q [Hin _]]. eapply DictFacts.In_keys; eauto.
Qed.

(** On a dictionary the comprehension is a filter of the keys. *)
Lemma low_names_filter d t :
  Dict.wf d ->
  flat_map (fun kv => if snd kv <? t then [fst kv] else []) d =
  List.filter (below d t) (Dict.keys d).
Proof.
  rewrite DictFacts.wf_NoDup.
  induction d as [|[k v] d IH]; simpl; intros Hnd; [reflexivity|].
  inversion Hnd as [|? ? Hk Hnd']; subst.
  unfold below at 1. simpl. rewrite String.eqb_refl.
  rewrite (IH Hnd').
  assert (List.filter (below ((k, v) :: d) t) (Dict.keys d) =
          List.filter (below d t) (Dict.keys d)) as ->.
  { apply filter_ext_in. intros k' Hk'. unfold below. simpl.
    destruct (String.eqb_spec k k') as [->|Hne]; [contradiction|reflexivity]. }
  now destruct (v <? t).
Qed.

(** [get_qty] on a name: the stored quantity, or 0. *)
Lemma get_qty_run (name : string) w :
  name <> "" ->
  get_qty (PyStr name) w = (Return (default 0 (Dict.get (stock_data w) name)), w).
Proof. intros Hne. destruct name as [|c s]; [congruence | reflexivity]. Qed.

(** [print_data] logs the header, then one line per entry, in order. *)
Lemma report_lines d w :
  for_each (Dict.items d)
    (fun kv (_ : unit) => logging INFO (ReportLine (fst kv) (snd kv))) tt w =
  (Return tt,
   with_log (log w ++ map (fun kv => (INFO, ReportLine (fst kv) (snd kv))) d) w).
Proof.
  revert w. induction d as [|[k v] d IH]; intros w; simpl.
  - unfold ret, with_log. rewrite app_nil_r. now destruct w.
  - unfold bind, logging at 1. rewrite IH. unfold with_log. simpl.
    now rewrite <- app_assoc.
Qed.

Lemma print_data_log w :
  print_data w =
  (Return tt,
   with_log (log w ++ (INFO, ItemsReport) ::
             map (fun kv => (INFO, ReportLine (fst kv) (snd kv))) (stock_data w))
     w).
Proof.
  unfold print_data, bind, logging, get_stock. simpl.
  rewrite report_lines. unfold with_log. simpl. now rewrite <- app_assoc.
Qed.

(** The demonstration, from an empty store and an empty disk: seven
    apples and two bananas are left, removing oranges raised [KeyError],
    bananas are low, and the store comes back from the file as saved. *)
Example main_run :
  let r := main (initial no_files) in
  fst r = Return tt /\
  stock_data (snd r) = [("apple", 7); ("banana", 2)] /\
  log (snd r) =
    [(INFO, Added (PyInt 10) "apple"); (INFO, Added (PyInt 2) "banana");
     (INFO, Removed 3 "apple"); (INFO, TriedMissing "orange");
     (INFO, AppleStock 7); (INFO, LowItems ["banana"]);
     (INFO, SavedTo default_file); (INFO, LoadedFrom default_file);
     (INFO, ItemsReport);
     (INFO, ReportLine "apple" 7); (INFO, ReportLine "banana" 2)].
Proof. repeat split. Qed.

End Queries.

(** C6: for every integer threshold, [check_low_items] returns without
    touching the world, and what it returns is exactly the keys whose
    stored quantity is strictly below the threshold, in the iteration
    (insertion) order of the store; called without a threshold it behaves
    as with the threshold 5. *)
Theorem check_low_items_below (w : world) (t : Z) :
  Dict.wf (stock_data w) ->
  check_low_items (Some (PyInt t)) w =
    (Return (List.filter (below (stock_data w) t) (Dict.keys (stock_data w))), w)
  /\ check_low_items None w = check_low_items (Some (PyInt 5)) w.
Proof.
  intros Hwf. split; [|reflexivity].
  unfold check_low_items, bind, get_stock, ret. simpl.
  now rewrite (low_names_filter _ _ Hwf).
Qed.

(** The store [{apple: 7, banana: 2}]: [check_low_items(5)] is
    [["banana"]]. *)
Lemma check_low_items_below_witness :
  let w := {| stock_data := [("apple", 7); ("banana", 2)];
              fs := no_files; log := [] |} in
  Dict.wf (stock_data w) /\
  check_low_items (Some (PyInt 5)) w = (Return ["banana"], w) /\
  check_low_items None w = (Return ["banana"], w).
Proof.
  intros w.
  assert (Dict.wf (stock_data w)) as Hwf by reflexivity.
  destruct (check_low_items_below w 5 Hwf) as [H5 Hdef].
  split; [exact Hwf|]. split; [exact H5 | rewrite Hdef; exact H5].
Defined.

(** C2: removing a positive quantity from a stored item subtracts it.  A
    result above 0 is stored; otherwise the entry is deleted, after which
    [get_qty] gives 0 and neither [check_low_items] nor [print_data]
    mentions the item.  The other entries keep their quantities. *)
Theorem remove_item_decrements (w : world) (item : string) (qty q : Z) :
  item <> "" -> 0 < qty -> Dict.get (stock_data w) item = Some q ->
  exists w',
    remove_item (PyStr item) (PyInt qty) w = (Return tt, w') /\
    Dict.get (stock_data w') item =
      (if 0 <? q - qty then Some (q - qty) else None) /\
    (forall k, k <> item ->
       Dict.get (stock_data w') k = Dict.get (stock_data w) k) /\
    (q - qty <= 0 ->
       get_qty (PyStr item) w' = (Return 0, w') /\
       (forall t, exists names,
          check_low_items (Some (PyInt t)) w' = (Return names, w') /\
          ~ In item names) /\
       (exists out w'',
          print_data w' = (Return tt, w'') /\
          log w'' = log w' ++ out /\ ~ reported item out)).
Proof.
  intros Hne Hqty Hget.
  unfold remove_item. simpl.
  destruct item as [|c item]; [congruence|].
  destruct (Z.leb_spec qty 0) as [?|_]; [lia|].
  unfold bind, get_stock at 1. rewrite Hget. simpl.
  destruct (Z.ltb_spec 0 (q - qty)) as [Hpos|Hnpos].
  - eexists. split; [reflexivity|]. simpl.
    split; [apply DictFacts.get_set_eq|].
    split; [intros k Hk; apply DictFacts.get_set_ne; congruence|]. lia.
  - eexists. split; [reflexivity|]. simpl.
    split; [apply DictFacts.get_del_eq|].
    split; [intros k Hk; apply DictFacts.get_del_ne; congruence|].
    intros _.
    pose proof (DictFacts.get_del_eq (stock_data w) (String c item)) as Hgone.
    split; [|split].
    + unfold get_qty, bind, get_stock, ret. simpl. now rewrite Hgone.
    + intros t. eexists. split; [reflexivity|]. simpl.
      intros Hin. apply low_names_keys in Hin.
      now apply DictFacts.get_None_keys in Hgone.
    + do 2 eexists. split; [apply print_data_log|]. simpl.
      split; [reflexivity|].
      intros [lv [z [Hin|Hin]]]; [discriminate|].
      apply in_map_iff in Hin. destruct Hin as [[k v] [Heq Hin]].
      inversion Heq; subst. apply DictFacts.get_None_keys in Hgone.
      apply Hgone. eapply DictFacts.In_keys; eauto.
Qed.

(** Two apples in stock, two removed: the entry goes away. *)
Lemma remove_item_decrements_witness :
  let w := {| stock_data := [("apple", 2); ("banana", 2)];
              fs := no_files; log := [] |} in
  exists w',
    remove_item (PyStr "apple") (PyInt 2) w = (Return tt, w') /\
    stock_data w' = [("banana", 2)] /\
    Dict.get (stock_data w') "apple" = None /\
    get_qty (PyStr "apple") w' = (Return 0, w').
Proof.
  intros w.
  destruct (remove_item_decrements w "apple" 2 2) as [w' [Hrun [Hget [_ Hgone]]]];
    [discriminate | lia | reflexivity |].
  exists w'. split; [exact Hrun|].
  split; [inversion Hrun; reflexivity|].
  split; [exact Hget|].
  apply Hgone. simpl. lia.
Defined.

(** ** Argument checks *)

(** An exception of [add_item] or [remove_item] is raised before anything
    is mutated, whatever the arguments are. *)
Lemma add_item_raise_unchanged (item : pyval) (qty : option pyval)
    (logs : option (list message)) (w : world) (e : exn) :
  fst (add_item item qty logs w) = Raise e -> snd (add_item item qty logs w) = w.
Proof.
  unfold add_item.
  destruct (as_str item) as [[|c s]|]; try reflexivity.
  destruct (as_int (default (PyInt 0) qty)) as [n|]; try reflexivity.
  destruct (n <? 0); [reflexivity|]. simpl. discriminate.
Qed.

Lemma remove_item_raise_unchanged (item qty : pyval) (w : world) (e : exn) :
  fst (remove_item item qty w) = Raise e -> snd (remove_item item qty w) = w.
Proof.
  unfold remove_item.
  destruct (as_str item) as [[|c s]|]; try reflexivity.
  destruct (as_int qty) as [n|]; try reflexivity.
  destruct (n <=? 0); [reflexivity|].
  unfold bind, get_stock. simpl.
  destruct (Dict.get (stock_data w) (String c s)) as [q|]; [|reflexivity].
  destruct (0 <? q - n); simpl; discriminate.
Qed.

(** Whatever the arguments, [add_item] raises nothing but the exceptions
    of its checks, and [remove_item] those or [KeyError]. *)
Lemma add_item_raises (item : pyval) (qty : option pyval)
    (logs : option (list message)) (w : world) (e : exn) :
  fst (add_item item qty logs w) = Raise e -> error_kind_of e = InvalidArgument.
Proof.
  unfold add_item.
  destruct (as_str item) as [[|c s]|]; try (intros [= <-]; reflexivity).
  destruct (as_int (default (PyInt 0) qty)) as [n|];
    try (intros [= <-]; reflexivity).
  destruct (n <? 0); [intros [= <-]; reflexivity|]. simpl. discriminate.
Qed.

Lemma remove_item_raises (item qty : pyval) (w : world) (e : exn) :
  fst (remove_item item qty w) = Raise e ->
  error_kind_of e = InvalidArgument \/ e = KeyError.
Proof.
  unfold remove_item.
  destruct (as_str item) as [[|c s]|]; try (intros [= <-]; now left).
  destruct (as_int qty) as [n|]; try (intros [= <-]; now left).
  destruct (n <=? 0); [intros [= <-]; now left|].
  unfold bind, get_stock. simpl.
  destruct (Dict.get (stock_data w) (String c s)) as [q|];
    [|intros [= <-]; now right].
  destruct (0 <? q - n); simpl; discriminate.
Qed.

(** C5: on a string and an integer, [add_item] raises exactly when the
    name is empty or the quantity negative, and what it raises is an
    InvalidArgument; [remove_item] raises an InvalidArgument when the
    quantity is not positive or the name is empty, and otherwise NotFound
    when the name has no entry.  Whenever one of them raises, on any
    arguments, the world (the store in it) is as before. *)
Theorem invalid_calls_rejected (w : world) (item : string) (qty : Z)
    (logs : option (list message)) :
  ((exists e, fst (add_item (PyStr item) (Some (PyInt qty)) logs w) = Raise e /\
              error_kind_of e = InvalidArgument)
   <-> item = "" \/ qty < 0) /\
  (forall e, fst (add_item (PyStr item) (Some (PyInt qty)) logs w) = Raise e ->
             error_kind_of e = InvalidArgument) /\
  (qty <= 0 \/ item = "" ->
   exists e, fst (remove_item (PyStr item) (PyInt qty) w) = Raise e /\
             error_kind_of e = InvalidArgument) /\
  (0 < qty -> item <> "" -> Dict.get (stock_data w) item = None ->
   fst (remove_item (PyStr item) (PyInt qty) w) = Raise KeyError /\
   error_kind_of KeyError = NotFound) /\
  (forall i q l e,
     fst (add_item i q l w) = Raise e ->
     stock_data (snd (add_item i q l w)) = stock_data w) /\
  (forall i q e,
     fst (remove_item i q w) = Raise e ->
     stock_data (snd (remove_item i q w)) = stock_data w).
Proof.
  split; [split|]; [| |split; [|split; [|split; [|split]]]].
  - intros [e [Hraise _]]. revert Hraise. unfold add_item. simpl.
    destruct item as [|c s]; [now left|].
    destruct (Z.ltb_spec qty 0) as [Hneg|Hpos]; [now right|].
    simpl. discriminate.
  - intros [->|Hneg].
    + exists TypeError. now split.
    + unfold add_item. simpl. destruct item as [|c s].
      * exists TypeError. now split.
      * apply Z.ltb_lt in Hneg. rewrite Hneg. exists ValueError. now split.
  - unfold add_item. simpl. intros e.
    destruct item as [|c s]; [intros [= <-]; reflexivity|].
    destruct (qty <? 0); [intros [= <-]; reflexivity|]. simpl. discriminate.
  - unfold remove_item. simpl. intros [Hle| ->].
    + destruct item as [|c s]; [exists TypeError; now split|].
      apply Z.leb_le in Hle. rewrite Hle. exists ValueError. now split.
    + exists TypeError. now split.
  - intros Hpos Hne Hget. split; [|reflexivity].
    unfold remove_item. simpl.
    destruct item as [|c s]; [congruence|].
    destruct (Z.leb_spec qty 0); [lia|].
    unfold bind, get_stock at 1. now rewrite Hget.
  - intros i q l e Hraise. now rewrite (add_item_raise_unchanged _ _ _ _ _ Hraise).
  - intros i q e Hraise. now rewrite (remove_item_raise_unchanged _ _ _ _ Hraise).
Qed.

(** ** Saving and loading *)

Section Persistence.
Implicit Types (d : Dict.t Z) (w : world).

(** [save_data] either writes the encoded store and logs at INFO, or, on
    a path that cannot be written, logs at ERROR and raises. *)
Lemma save_data_run (file : option string) w :
  let f := default default_file file in
  save_data file w =
  if decide (f ∈ unwritable (fs w)) then
    (Raise OSError, with_log (log w ++ [(ERROR, SaveFailed f)]) w)
  else
    (Return tt,
     with_log (log w ++ [(INFO, SavedTo f)])
       (with_fs {| files := <[f := Json (json_encode (stock_data w))]>
                              (files (fs w));
                   unwritable := unwritable (fs w) |} w)).
Proof.
  unfold save_data, try_except, bind, get_stock, write_json. simpl.
  destruct (decide (default default_file file ∈ unwritable (fs w))); reflexivity.
Qed.

(** One turn of the loop of [load_data]: the entry is assigned, skipped
    with a warning, or the exception of [int] escapes. *)
Lemma load_entry_run (k : string) (v : pyval) (acc : Dict.t Z) w :
  load_entry (k, v) acc w =
  match py_int v with
  | inr n => (Return (Dict.set acc k n), w)
  | inl e =>
      if existsb (exn_isinstance e) [TypeError; ValueError] then
        (Return acc, with_log (log w ++ [(WARNING, SkippingItem k v)]) w)
      else (Raise e, w)
  end.
Proof.
  unfold load_entry, try_except, bind, lift. simpl.
  destruct (py_int v) as [e|n]; [destruct e|]; reflexivity.
Qed.

(** The loop of [load_data] touches neither the store nor the files. *)
Lemma load_entries_frame (xs : list (string * pyval)) (acc : Dict.t Z) w r w' :
  for_each xs load_entry acc w = (r, w') ->
  stock_data w' = stock_data w /\ fs w' = fs w.
Proof.
  revert acc w. induction xs as [|[k v] xs IH]; intros acc w; simpl.
  - intros [= <- <-]. auto.
  - unfold bind. rewrite load_entry_run.
    destruct (py_int v) as [e|n]; [|apply IH].
    destruct (existsb (exn_isinstance e) [TypeError; ValueError]).
    + intros Hrun. apply IH in Hrun. exact Hrun.
    + intros [= <- <-]. auto.
Qed.

(** On values that are integers already, the loop assigns them all. *)
Lemma load_entries_ints d (acc : Dict.t Z) w :
  for_each (map (fun kv => (fst kv, PyInt (snd kv))) d) load_entry acc w =
  (Return (Dict.update acc d), w).
Proof.
  revert acc. induction d as [|[k v] d IH]; intros acc; simpl; [reflexivity|].
  unfold bind. rewrite load_entry_run. simpl. apply IH.
Qed.

Lemma keys_map_values {A B : Type} (g : A -> B) (l : list (string * A)) :
  Dict.keys (map (fun kv => (fst kv, g (snd kv))) l) = Dict.keys l.
Proof. unfold Dict.keys. rewrite map_map. reflexivity. Qed.

(** Decoding what [json.dump] wrote for a dictionary gives its entries
    back, as integers. *)
Lemma json_decode_encode d :
  Dict.wf d ->
  json_decode (json_encode d) = PyDict (map (fun kv => (fst kv, PyInt (snd kv))) d).
Proof.
  intros Hwf. unfold json_encode, Dict.items. simpl. rewrite map_map. simpl.
  unfold Dict.of_pairs. rewrite DictFacts.update_empty; [reflexivity|].
  unfold Dict.wf. rewrite (keys_map_values PyInt). exact Hwf.
Qed.

(** Loading a file that holds an encoded dictionary installs it. *)
Lemma load_data_encoded (file : option string) d w :
  let f := default default_file file in
  files (fs w) !! f = Some (Json (json_encode d)) -> Dict.wf d ->
  load_data file w =
  (Return tt, with_log (log w ++ [(INFO, LoadedFrom f)]) (with_stock d w)).
Proof.
  intros f Hfile Hwf.
  unfold load_data, try_except, bind at 1, bind at 1, read_json.
  fold f. rewrite Hfile, (json_decode_encode _ Hwf).
  unfold Dict.items. rewrite load_entries_ints.
  unfold bind, stock_clear, stock_update, put_stock, get_stock, logging. simpl.
  rewrite !(DictFacts.update_empty _ Hwf). reflexivity.
Qed.

(** Whatever the file holds, a load that returns leaves a dictionary. *)
Lemma load_data_wf (file : option string) w w' :
  load_data file w = (Return tt, w') -> Dict.wf (stock_data w').
Proof.
  unfold load_data, try_except, bind at 1, bind at 1, read_json.
  destruct (files (fs w) !! default default_file file) as [[j|j| |]|]; simpl.
  1, 2:
    (destruct (json_decode j) as [| | | | | |d]; simpl; try discriminate;
     destruct (for_each (Dict.items d) load_entry Dict.empty w)
       as [[normalized|e] w1] eqn:Hloop;
     [ unfold bind, stock_clear, stock_update, put_stock, get_stock, logging;
       simpl; intros [= <-]; simpl;
       apply DictFacts.wf_update, DictFacts.wf_empty
     | destruct e; simpl; try discriminate;
       unfold bind, stock_clear, put_stock, logging; simpl; try discriminate;
       intros [= <-]; reflexivity ]).
  - unfold bind, logging. simpl. discriminate.
  - discriminate.
  - unfold bind, logging, stock_clear, put_stock. simpl. intros [= <-]. reflexivity.
Qed.

End Persistence.

(** ** Reachable worlds *)

Section Reachable.
Implicit Types (d : Dict.t Z) (w : world).

(** What a successful [add_item] did. *)
Lemma add_item_returns (item : pyval) (qty : option pyval)
    (logs : option (list message)) w r w' :
  add_item item qty logs w = (Return r, w') ->
  exists name n,
    0 <= n /\
    stock_data w' =
      Dict.set (stock_data w) name (default 0 (Dict.get (stock_data w) name) + n) /\
    fs w' = fs w.
Proof.
  unfold add_item.
  destruct (as_str item) as [[|c s]|]; try discriminate.
  destruct (as_int (default (PyInt 0) qty)) as [n|]; try discriminate.
  destruct (Z.ltb_spec n 0) as [|Hn]; [discriminate|].
  unfold bind, get_stock, put_stock, logging, ret. simpl.
  intros [= <- <-]. exists (String c s), n. auto.
Qed.

(** What a successful [remove_item] did. *)
Lemma remove_item_returns (item qty : pyval) w w' :
  remove_item item qty w = (Return tt, w') ->
  exists name n q,
    0 < n /\ Dict.get (stock_data w) name = Some q /\
    stock_data w' =
      (if 0 <? q - n then Dict.set (stock_data w) name (q - n)
       else Dict.del (stock_data w) name) /\
    fs w' = fs w.
Proof.
  unfold remove_item.
  destruct (as_str item) as [[|c s]|]; try discriminate.
  destruct (as_int qty) as [n|]; try discriminate.
  destruct (Z.leb_spec n 0) as [|Hn]; [discriminate|].
  unfold bind, get_stock. simpl.
  destruct (Dict.get (stock_data w) (String c s)) as [q|] eqn:Hget;
    [|discriminate].
  intros Hrun. exists (String c s), n, q.
  split; [exact Hn|]. split; [exact Hget|].
  destruct (0 <? q - n); simpl in Hrun; inversion Hrun; auto.
Qed.

(** Every call keeps the store a dictionary. *)
Lemma run_wf (c : call) w w' :
  Dict.wf (stock_data w) -> run c w = (Return tt, w') -> Dict.wf (stock_data w').
Proof.
  intros Hwf. destruct c as [item qty logs|item qty|file|file]; simpl.
  - unfold bind at 1.
    destruct (add_item item qty logs w) as [[r|e] w1] eqn:Hadd; [|discriminate].
    intros [= <-]. apply add_item_returns in Hadd.
    destruct Hadd as [name [n [_ [-> _]]]]. now apply DictFacts.wf_set.
  - intros Hrem. apply remove_item_returns in Hrem.
    destruct Hrem as [name [n [q [_ [_ [-> _]]]]]].
    destruct (0 <? q - n); [now apply DictFacts.wf_set | now apply DictFacts.wf_del].
  - rewrite save_data_run.
    destruct (decide _); [discriminate|]. now intros [= <-].
  - apply load_data_wf.
Qed.

Lemma reachable_wf w0 w :
  Dict.wf (stock_data w0) -> reachable w0 w -> Dict.wf (stock_data w).
Proof.
  intros Hwf Hreach. induction Hreach as [|c w w' _ IH Hrun]; [exact Hwf|].
  eapply run_wf; eauto.
Qed.

End Reachable.

(** C3: in a world reached from the empty store, a [save_data] that
    returns, followed by [load_data] on the same path, returns and leaves
    the store with the entries it had before the save: the same keys with
    the same quantities, in the same order. *)
Theorem save_load_roundtrip (fs0 : filesystem) (w w1 : world)
    (file : option string) :
  reachable (initial fs0) w ->
  save_data file w = (Return tt, w1) ->
  exists w2,
    load_data file w1 = (Return tt, w2) /\ stock_data w2 = stock_data w.
Proof.
  intros Hreach Hsave.
  assert (Dict.wf (stock_data w)) as Hwf.
  { eapply reachable_wf; [|exact Hreach]. reflexivity. }
  rewrite save_data_run in Hsave.
  destruct (decide _) as [|_]; [discriminate|].
  injection Hsave as <-.
  eexists. split.
  - apply load_data_encoded; [|exact Hwf]. simpl. apply lookup_insert_eq.
  - reflexivity.
Qed.

(** Ten apples and two bananas, saved to and loaded from the default
    file. *)
Lemma save_load_roundtrip_witness :
  let w := snd (run (CallAdd (PyStr "banana") (Some (PyInt 2)) None)
             (snd (run (CallAdd (PyStr "apple") (Some (PyInt 10)) None)
                (initial no_files)))) in
  exists w2,
    load_data None (snd (save_data None w)) = (Return tt, w2) /\
    stock_data w2 = [("apple", 10); ("banana", 2)].
Proof.
  intros w.
  apply (save_load_roundtrip no_files w (snd (save_data None w)) None).
  - eapply (reach_call _ (CallAdd (PyStr "banana") (Some (PyInt 2)) None)).
    + eapply (reach_call _ (CallAdd (PyStr "apple") (Some (PyInt 10)) None)).
      * apply reach_start.
      * reflexivity.
    + reflexivity.
  - reflexivity.
Defined.

(** ** The quantities at rest *)

Section Invariant.
Implicit Types (d : Dict.t Z) (w : world).

(** Loading a path with no file empties the store, with a warning. *)
Lemma load_absent_run (file : option string) w :
  let f := default default_file file in
  files (fs w) !! f = None ->
  load_data file w =
  (Return tt,
   with_stock Dict.empty (with_log (log w ++ [(WARNING, FileNotFound f)]) w)).
Proof.
  intros f Hfile.
  unfold load_data, try_except, bind at 1, read_json. fold f. rewrite Hfile.
  reflexivity.
Qed.

Lemma nonneg_get d k q : nonneg d -> Dict.get d k = Some q -> 0 <= q.
Proof.
  intros Hd Hget. apply DictFacts.get_In in Hget.
  unfold nonneg in Hd. rewrite List.Forall_forall in Hd. exact (Hd _ Hget).
Qed.

(** The invariant survives every call that returns. *)
Lemma run_inv (c : call) w w' :
  store_inv w -> run c w = (Return tt, w') -> store_inv w'.
Proof.
  intros (Hwf & Hnn & Hfs). destruct c as [item qty logs|item qty|file|file]; simpl.
  - unfold bind at 1.
    destruct (add_item item qty logs w) as [[r|e] w1] eqn:Hadd; [|discriminate].
    intros [= <-]. apply add_item_returns in Hadd.
    destruct Hadd as (name & n & Hn & Hstock & Hsame).
    unfold store_inv. rewrite Hstock, Hsame.
    split; [now apply DictFacts.wf_set|]. split; [|exact Hfs].
    apply (DictFacts.Forall_set (fun q => 0 <= q)); [exact Hnn|].
    destruct (Dict.get (stock_data w) name) as [q|] eqn:Hget; simpl; [|lia].
    pose proof (nonneg_get _ _ _ Hnn Hget). lia.
  - intros Hrem. apply remove_item_returns in Hrem.
    destruct Hrem as (name & n & q & Hn & Hget & Hstock & Hsame).
    unfold store_inv. rewrite Hstock, Hsame. split; [|split; [|exact Hfs]].
    + destruct (0 <? q - n);
        [now apply DictFacts.wf_set | now apply DictFacts.wf_del].
    + destruct (Z.ltb_spec 0 (q - n)).
      * apply (DictFacts.Forall_set (fun q => 0 <= q)); [exact Hnn | lia].
      * apply (DictFacts.Forall_del (fun q => 0 <= q)), Hnn.
  - rewrite save_data_run.
    destruct (decide _); [discriminate|]. intros [= <-].
    split; [exact Hwf|]. split; [exact Hnn|].
    intros p t. cbn [fs files with_fs with_log].
    rewrite lookup_insert. case_decide.
    + intros [= <-]. eauto.
    + apply Hfs.
  - destruct (files (fs w) !! default default_file file) as [t|] eqn:Hfile.
    + destruct (Hfs _ _ Hfile) as (d & -> & Hd & Hdnn).
      rewrite (load_data_encoded _ _ _ Hfile Hd). intros [= <-].
      split; [exact Hd|]. split; [exact Hdnn | exact Hfs].
    + rewrite (load_absent_run _ _ Hfile). intros [= <-].
      split; [reflexivity|]. split; [constructor | exact Hfs].
Qed.

Lemma initial_inv : store_inv (initial no_files).
Proof.
  split; [reflexivity|]. split; [constructor|].
  intros p t. simpl. rewrite lookup_empty. discriminate.
Qed.

Lemma reachable_inv w0 w : store_inv w0 -> reachable w0 w -> store_inv w.
Proof.
  intros H0 Hreach. induction Hreach as [|c w w' _ IH Hrun]; [exact H0|].
  eapply run_inv; eauto.
Qed.

End Invariant.

(** C1, as the code has it: in every world reached from the empty store
    by calls of [add_item], [remove_item], [save_data] and [load_data]
    that return, when no file exists at the start (so that [load_data]
    reads only what [save_data] wrote), every stored quantity is at
    least 0. *)
Theorem stored_quantities_nonneg (w : world) (k : string) (q : Z) :
  reachable (initial no_files) w ->
  In (k, q) (Dict.items (stock_data w)) ->
  0 <= q.
Proof.
  intros Hreach Hin.
  destruct (reachable_inv _ _ initial_inv Hreach) as (_ & Hnn & _).
  unfold nonneg in Hnn. rewrite List.Forall_forall in Hnn. exact (Hnn _ Hin).
Qed.

(** Three of ten apples removed: seven are left. *)
Lemma stored_quantities_nonneg_witness :
  let w := snd (run (CallRemove (PyStr "apple") (PyInt 3))
             (snd (run (CallAdd (PyStr "apple") (Some (PyInt 10)) None)
                (initial no_files)))) in
  In ("apple", 7) (Dict.items (stock_data w)) /\ 0 <= 7.
Proof.
  intros w.
  assert (In ("apple", 7) (Dict.items (stock_data w))) as Hin by (now left).
  split; [exact Hin|].
  apply (stored_quantities_nonneg w "apple" 7); [|exact Hin].
  eapply (reach_call _ (CallRemove (PyStr "apple") (PyInt 3))).
  - eapply (reach_call _ (CallAdd (PyStr "apple") (Some (PyInt 10)) None)).
    + apply reach_start.
    + reflexivity.
  - reflexivity.
Defined.

(** C1 as stated fails.  With no file at all, [add_item("a", 0)] stores
    the quantity 0; and on a file system that already holds
    [{"a": -5}], [load_data] stores the quantity -5. *)
Lemma stored_quantities_positive_counterexample :
  ~ quantities_above 0 no_files /\
  ~ quantities_above (-1)
      {| files := {[ default_file := Json (JObject [("a", JInt (-5))]) ]};
         unwritable := ∅ |}.
Proof.
  split.
  - intros Hclaim.
    assert (0 < 0) as Habs; [|lia].
    apply (Hclaim (snd (run (CallAdd (PyStr "a") (Some (PyInt 0)) None)
                          (initial no_files))) ) with (k := "a").
    + eapply (reach_call _ (CallAdd (PyStr "a") (Some (PyInt 0)) None)).
      * apply reach_start.
      * reflexivity.
    + now left.
  - intros Hclaim.
    set (fs0 := {| files := {[ default_file := Json (JObject [("a", JInt (-5))]) ]};
                   unwritable := ∅ |}) in *.
    assert (-1 < -5) as Habs; [|lia].
    apply (Hclaim (snd (run (CallLoad None) (initial fs0)))) with (k := "a").
    + eapply (reach_call _ (CallLoad None)).
      * apply reach_start.
      * reflexivity.
    + now left.
Qed.

(** ** Loading files that the store did not write *)

Section Loading.
Implicit Types (d : Dict.t Z) (w : world).

(** [int] raises nothing but the two classes that the loop catches, and
    [OverflowError]. *)
Lemma py_int_raises (v : pyval) (e : exn) :
  py_int v = inl e -> e = TypeError \/ e = ValueError \/ e = OverflowError.
Proof.
  destruct v as [|b|z|f|s|l|d]; simpl; try discriminate;
    try (intros [= <-]; tauto).
  - destruct f; simpl; try discriminate; intros [= <-]; tauto.
  - destruct (int_of_str s); [discriminate|]. intros [= <-]. tauto.
Qed.

(** Without infinite floats the loop returns: the entries that [int]
    accepts are assigned, the others are skipped with a warning each. *)
Lemma load_entries_finite (entries : list (string * pyval)) (acc : Dict.t Z) w :
  finite_values entries ->
  for_each entries load_entry acc w =
  (Return (coerced entries acc), with_log (log w ++ skipped entries) w).
Proof.
  intros Hfin. revert acc w.
  induction Hfin as [|[k v] rest Hv _ IH]; intros acc w; simpl.
  - unfold ret, with_log. rewrite app_nil_r. now destruct w.
  - unfold bind. rewrite load_entry_run. simpl in Hv.
    destruct (py_int v) as [e|n] eqn:Hint; [|apply IH].
    destruct (py_int_raises _ _ Hint) as [-> | [-> | ->]]; [| |congruence];
      simpl; rewrite IH; unfold with_log; simpl; now rewrite <- app_assoc.
Qed.

(** [load_data] on an object without infinite floats. *)
Lemma load_data_finite (file : option string) (ms : list (string * json)) w :
  let f := default default_file file in
  let entries :=
    Dict.of_pairs (map (fun kv => (fst kv, json_decode (snd kv))) ms) in
  files (fs w) !! f = Some (Json (JObject ms)) ->
  finite_values entries ->
  load_data file w =
  (Return tt,
   with_log (log w ++ skipped entries ++ [(INFO, LoadedFrom f)])
     (with_stock (Dict.update Dict.empty (coerced entries Dict.empty)) w)).
Proof.
  intros f entries Hfile Hfin.
  unfold load_data, try_except, bind at 1, bind at 1, read_json.
  fold f. rewrite Hfile. cbn [json_decode]. fold entries.
  unfold Dict.items. rewrite (load_entries_finite _ _ _ Hfin).
  unfold bind, stock_clear, stock_update, put_stock, get_stock, logging,
    with_log, with_stock. simpl. now rewrite <- app_assoc.
Qed.

(** An infinite float stops the loop: the warnings for the entries before
    it are logged, nothing else has happened. *)
Lemma load_entries_overflow (before after : list (string * pyval))
    (k : string) (sign : bool) (acc : Dict.t Z) w :
  finite_values before ->
  for_each (before ++ (k, PyFloat (S754_infinity sign)) :: after) load_entry acc w =
  (Raise OverflowError, with_log (log w ++ skipped before) w).
Proof.
  intros Hfin. revert acc w.
  induction Hfin as [|[k' v] rest Hv _ IH]; intros acc w; simpl.
  - unfold bind. rewrite load_entry_run. simpl.
    unfold with_log. rewrite app_nil_r. now destruct w.
  - unfold bind. rewrite load_entry_run. simpl in Hv.
    destruct (py_int v) as [e|n] eqn:Hint; [|apply IH].
    destruct (py_int_raises _ _ Hint) as [-> | [-> | ->]]; [| |congruence];
      simpl; rewrite IH; unfold with_log; simpl; now rewrite <- app_assoc.
Qed.

Lemma load_data_overflow (file : option string) (ms : list (string * json))
    (before after : list (string * pyval)) (k : string) (sign : bool) w :
  files (fs w) !! default default_file file = Some (Json (JObject ms)) ->
  Dict.of_pairs (map (fun kv => (fst kv, json_decode (snd kv))) ms) =
    before ++ (k, PyFloat (S754_infinity sign)) :: after ->
  finite_values before ->
  load_data file w =
  (Raise OverflowError, with_log (log w ++ skipped before) w).
Proof.
  intros Hfile Hentries Hfin.
  unfold load_data, try_except, bind at 1, bind at 1, read_json.
  rewrite Hfile. cbn [json_decode]. rewrite Hentries.
  unfold Dict.items. rewrite (load_entries_overflow _ _ _ _ _ _ Hfin).
  reflexivity.
Qed.

(** The two files of the specification: [{"a": "x"}] leaves the store
    empty, with a warning; [{"a": 3}] stores 3 under ["a"]. *)
Example load_data_skips_x w :
  files (fs w) !! default_file = Some (Json (JObject [("a", JString "x")])) ->
  load_data None w =
  (Return tt,
   with_log (log w ++ [(WARNING, SkippingItem "a" (PyStr "x"));
                       (INFO, LoadedFrom default_file)])
     (with_stock Dict.empty w)).
Proof.
  intros Hfile. rewrite (load_data_finite None _ _ Hfile); [reflexivity|].
  repeat constructor. discriminate.
Qed.

Example load_data_reads_3 w :
  files (fs w) !! default_file = Some (Json (JObject [("a", JInt 3)])) ->
  load_data None w =
  (Return tt,
   with_log (log w ++ [(INFO, LoadedFrom default_file)])
     (with_stock [("a", 3)] w)).
Proof.
  intros Hfile. rewrite (load_data_finite None _ _ Hfile); [reflexivity|].
  repeat constructor. discriminate.
Qed.

End Loading.

(** C8: on a path with no file, [load_data] returns normally, leaves the
    store empty whatever it held, and logs one record, a WARNING. *)
Theorem load_data_missing (w : world) (file : option string) :
  files (fs w) !! default default_file file = None ->
  exists w',
    load_data file w = (Return tt, w') /\
    stock_data w' = Dict.empty /\
    log w' = log w ++ [(WARNING, FileNotFound (default default_file file))] /\
    fs w' = fs w.
Proof.
  intros Hfile. eexists. split; [apply load_absent_run, Hfile|].
  repeat split.
Qed.

(** A store with apples, no file on disk. *)
Lemma load_data_missing_witness :
  let w := {| stock_data := [("apple", 7)]; fs := no_files; log := [] |} in
  exists w',
    load_data (Some "stock.json") w = (Return tt, w') /\
    stock_data w' = [] /\
    log w' = [(WARNING, FileNotFound "stock.json")].
Proof.
  intros w.
  destruct (load_data_missing w (Some "stock.json")) as (w' & Hrun & Hs & Hl & _);
    [reflexivity|].
  exists w'. split; [exact Hrun|]. split; [exact Hs | exact Hl].
Defined.

(** C4, as the code has it: on a file whose text the decoder of the
    [json] package rejects, [load_data] raises [json.JSONDecodeError],
    the ParseError of the specification, after logging an ERROR; the
    store and the files are as before. *)
Theorem load_data_malformed (w : world) (file : option string) :
  files (fs w) !! default default_file file = Some Malformed ->
  exists w',
    load_data file w = (Raise JSONDecodeError, w') /\
    error_kind_of JSONDecodeError = ParseError /\
    stock_data w' = stock_data w /\
    fs w' = fs w /\
    log w' = log w ++ [(ERROR, ParseFailed (default default_file file))].
Proof.
  intros Hfile. eexists. split.
  - unfold load_data, try_except, bind at 1, read_json. rewrite Hfile.
    reflexivity.
  - repeat split.
Qed.

(** A store with apples and bananas, a damaged default file. *)
Lemma load_data_malformed_witness :
  let w := {| stock_data := [("apple", 7); ("banana", 2)];
              fs := {| files := {[ default_file := Malformed ]};
                       unwritable := ∅ |};
              log := [] |} in
  exists w',
    load_data None w = (Raise JSONDecodeError, w') /\
    stock_data w' = [("apple", 7); ("banana", 2)].
Proof.
  intros w.
  destruct (load_data_malformed w None) as (w' & Hrun & _ & Hs & _);
    [reflexivity|].
  exists w'. split; [exact Hrun | exact Hs].
Defined.

(** C4 as stated fails.  The text [{"a": NaN}] is not JSON, but the
    decoder reads it: [load_data] skips the entry with a warning, empties
    the store and returns. *)
Lemma load_data_not_json_counterexample :
  ~ (forall (w : world) (file : option string) (t : text),
       files (fs w) !! default default_file file = Some t ->
       not_json t = true ->
       exists w',
         load_data file w = (Raise JSONDecodeError, w') /\
         stock_data w' = stock_data w).
Proof.
  intros Hclaim.
  set (t := Lenient (JObject [("a", JFloat S754_nan)])).
  set (w := {| stock_data := [("apple", 7)];
               fs := {| files := {[ default_file := t ]}; unwritable := ∅ |};
               log := [] |}).
  destruct (Hclaim w None t eq_refl eq_refl) as (w' & Hrun & _).
  assert (load_data None w =
          (Return tt,
           {| stock_data := [];
              fs := fs w;
              log := [(WARNING, SkippingItem "a" (PyFloat S754_nan));
                      (INFO, LoadedFrom default_file)] |})) as Hreal
    by reflexivity.
  rewrite Hreal in Hrun. discriminate.
Qed.

(** C10: on a file that holds a JSON value other than an object,
    [load_data] raises a plain [ValueError], which is not the
    [json.JSONDecodeError] of a parse failure and which no handler of
    [load_data] catches: the store, the files and the log are as before. *)
Theorem load_data_not_object (w : world) (file : option string) (j : json) :
  files (fs w) !! default default_file file = Some (Json j) ->
  (forall ms, j <> JObject ms) ->
  load_data file w = (Raise ValueError, w) /\
  ValueError <> JSONDecodeError /\
  error_kind_of ValueError <> ParseError.
Proof.
  intros Hfile Hobj. split; [|split; discriminate].
  unfold load_data, try_except, bind at 1, bind at 1, read_json. rewrite Hfile.
  destruct j; try reflexivity. now destruct (Hobj members).
Qed.

(** A JSON array in the default file. *)
Lemma load_data_not_object_witness :
  let w := {| stock_data := [("apple", 7)];
              fs := {| files := {[ default_file := Json (JArray [JInt 1; JInt 2]) ]};
                       unwritable := ∅ |};
              log := [] |} in
  load_data None w = (Raise ValueError, w).
Proof.
  intros w.
  apply (load_data_not_object w None (JArray [JInt 1; JInt 2])).
  - reflexivity.
  - discriminate.
Defined.

(** C7, where the code departs from it: a value that is an infinite
    float (the JSON number [1e999], say) makes [int] raise
    [OverflowError], which the loop of [load_data] does not catch.  The
    entry is not skipped: [load_data] raises, before it touches the
    store. *)
Theorem load_data_infinite_raises (w : world) (file : option string)
    (key : string) (sign : bool) :
  files (fs w) !! default default_file file =
    Some (Json (JObject [(key, JFloat (S754_infinity sign))])) ->
  load_data file w = (Raise OverflowError, w).
Proof.
  intros Hfile.
  unfold load_data, try_except, bind at 1, bind at 1, read_json. rewrite Hfile.
  reflexivity.
Qed.

(** The file [{"a": 1e999}]. *)
Lemma load_data_infinite_raises_witness :
  let w := {| stock_data := [("apple", 7)];
              fs := {| files := {[ default_file :=
                         Json (JObject [("a", JFloat (S754_infinity false))]) ]};
                       unwritable := ∅ |};
              log := [] |} in
  load_data None w = (Raise OverflowError, w).
Proof.
  intros w. apply (load_data_infinite_raises w None "a" false). reflexivity.
Defined.

(** * Further properties of the functions *)

(** ** More on dictionaries *)

Module DictMore.
Section Facts.
Context {V : Type}.
Implicit Types (d : Dict.t V) (k : string) (v : V).

(** Assigning to a key the value it has changes nothing. *)
Lemma set_same d k v : Dict.get d k = Some v -> Dict.set d k v = d.
Proof.
  induction d as [|[k' v'] d IH]; simpl; [discriminate|].
  destruct (String.eqb k' k); [intros [= ->]; reflexivity|].
  intros H. now rewrite IH.
Qed.

(** The second of two assignments to a key is the one that counts. *)
Lemma set_set d k v v' : Dict.set (Dict.set d k v) k v' = Dict.set d k v'.
Proof.
  induction d as [|[k0 v0] d IH]; simpl.
  - now rewrite String.eqb_refl.
  - destruct (String.eqb k0 k) eqn:E; simpl; rewrite E; [reflexivity|].
    now rewrite IH.
Qed.

Lemma del_fresh d k : ~ In k (Dict.keys d) -> Dict.del d k = d.
Proof.
  induction d as [|[k' v'] d IH]; simpl; [reflexivity|].
  intros Hk. destruct (String.eqb_spec k' k) as [->|Hne]; [tauto|].
  simpl. f_equal. apply IH. tauto.
Qed.

(** Deleting a key that was just added restores the dictionary. *)
Lemma del_set_fresh d k v :
  ~ In k (Dict.keys d) -> Dict.del (Dict.set d k v) k = d.
Proof.
  intros Hk. rewrite (DictFacts.set_fresh _ _ _ Hk).
  unfold Dict.del. rewrite List.filter_app. simpl. rewrite String.eqb_refl. simpl.
  rewrite app_nil_r. now apply del_fresh.
Qed.

Lemma keys_del d k :
  Dict.keys (Dict.del d k) =
  List.filter (fun k' => negb (String.eqb k' k)) (Dict.keys d).
Proof.
  induction d as [|[k' v'] d IH]; simpl; [reflexivity|].
  destruct (String.eqb k' k); simpl; now rewrite IH.
Qed.

End Facts.
End DictMore.

(** ** Adding and removing *)

Section Mutations.
Implicit Types (d : Dict.t Z) (w : world).

(** [add_item] on a name and a quantity that pass the checks. *)
Lemma add_item_run (name : string) (n : Z) (logs : option (list message)) w :
  name <> "" -> 0 <= n ->
  add_item (PyStr name) (Some (PyInt n)) logs w =
  (Return (default [] logs ++ [Added (PyInt n) name]),
   with_log (log w ++ [(INFO, Added (PyInt n) name)])
     (with_stock
        (Dict.set (stock_data w) name
           (default 0 (Dict.get (stock_data w) name) + n)) w)).
Proof.
  intros Hne Hn. unfold add_item. simpl.
  destruct name as [|c s]; [congruence|].
  destruct (Z.ltb_spec n 0); [lia | reflexivity].
Qed.

(** [remove_item] on a stored name and a positive quantity. *)
Lemma remove_item_run (name : string) (n q : Z) w :
  name <> "" -> 0 < n -> Dict.get (stock_data w) name = Some q ->
  remove_item (PyStr name) (PyInt n) w =
  if 0 <? q - n then
    (Return tt,
     with_log (log w ++ [(INFO, Removed n name)])
       (with_stock (Dict.set (stock_data w) name (q - n)) w))
  else
    (Return tt,
     with_log (log w ++ [(INFO, RemovedDepleted n name)])
       (with_stock (Dict.del (stock_data w) name) w)).
Proof.
  intros Hne Hn Hget. unfold remove_item. simpl.
  destruct name as [|c s]; [congruence|].
  destruct (Z.leb_spec n 0); [lia|].
  unfold bind, get_stock at 1. rewrite Hget.
  destruct (0 <? q - n); reflexivity.
Qed.

End Mutations.

(** X1: [add_item] on a non-empty name and a quantity that is not
    negative returns; the caller's list has the entry appended, one INFO
    record is logged, [get_qty] of the name has grown by the quantity,
    the other names keep theirs and no file is touched.  Without a
    quantity, 0 is added. *)
Theorem add_item_adds (w : world) (name : string) (n : Z)
    (logs : option (list message)) :
  name <> "" -> 0 <= n ->
  exists w',
    add_item (PyStr name) (Some (PyInt n)) logs w =
      (Return (default [] logs ++ [Added (PyInt n) name]), w') /\
    get_qty (PyStr name) w' =
      (Return (default 0 (Dict.get (stock_data w) name) + n), w') /\
    (forall k, k <> name ->
       Dict.get (stock_data w') k = Dict.get (stock_data w) k) /\
    log w' = log w ++ [(INFO, Added (PyInt n) name)] /\
    fs w' = fs w /\
    add_item (PyStr name) None logs w =
      add_item (PyStr name) (Some (PyInt 0)) logs w.
Proof.
  intros Hne Hn. eexists. split; [apply add_item_run; assumption|].
  split; [|split; [|repeat split]].
  - rewrite (get_qty_run _ _ Hne). simpl.
    now rewrite DictFacts.get_set_eq.
  - intros k Hk. simpl. apply DictFacts.get_set_ne. congruence.
Qed.

(** Three pears on top of four. *)
Lemma add_item_adds_witness :
  let w := {| stock_data := [("pear", 4)]; fs := no_files; log := [] |} in
  exists w',
    add_item (PyStr "pear") (Some (PyInt 3)) (Some []) w =
      (Return [Added (PyInt 3) "pear"], w') /\
    get_qty (PyStr "pear") w' = (Return 7, w').
Proof.
  intros w.
  destruct (add_item_adds w "pear" 3 (Some [])) as (w' & Hrun & Hqty & _);
    [discriminate | lia |].
  exists w'. split; [exact Hrun | exact Hqty].
Defined.

(** X2: the iteration order under [add_item]: a stored name keeps its
    place, a new name goes to the end. *)
Theorem add_item_order (w : world) (name : string) (n : Z)
    (logs : option (list message)) :
  name <> "" -> 0 <= n ->
  Dict.keys (stock_data (snd (add_item (PyStr name) (Some (PyInt n)) logs w))) =
  if Dict.mem (stock_data w) name then Dict.keys (stock_data w)
  else Dict.keys (stock_data w) ++ [name].
Proof.
  intros Hne Hn. rewrite (add_item_run _ _ _ _ Hne Hn). simpl.
  apply DictFacts.keys_set.
Qed.

Lemma add_item_order_witness :
  let w := {| stock_data := [("pear", 4); ("fig", 1)]; fs := no_files; log := [] |} in
  Dict.keys (stock_data (snd (add_item (PyStr "pear") (Some (PyInt 3)) None w))) =
    ["pear"; "fig"] /\
  Dict.keys (stock_data (snd (add_item (PyStr "kiwi") (Some (PyInt 3)) None w))) =
    ["pear"; "fig"; "kiwi"].
Proof.
  intros w. split.
  - apply (add_item_order w "pear" 3 None); [discriminate | lia].
  - apply (add_item_order w "kiwi" 3 None); [discriminate | lia].
Defined.

(** X3: [add_item] with the quantity 0.  On a stored name the store is
    exactly as before; on a name that is not stored, an entry with the
    quantity 0 is appended. *)
Theorem add_item_zero (w : world) (name : string)
    (logs : option (list message)) :
  name <> "" ->
  stock_data (snd (add_item (PyStr name) (Some (PyInt 0)) logs w)) =
  if Dict.mem (stock_data w) name then stock_data w
  else stock_data w ++ [(name, 0)].
Proof.
  intros Hne. rewrite (add_item_run _ _ _ _ Hne (Z.le_refl 0)). simpl.
  unfold Dict.mem. destruct (Dict.get (stock_data w) name) as [q|] eqn:Hget; simpl.
  - rewrite Z.add_0_r. now apply DictMore.set_same.
  - apply DictFacts.set_fresh. now apply DictFacts.get_None_keys.
Qed.

Lemma add_item_zero_witness :
  let w := {| stock_data := [("pear", 4)]; fs := no_files; log := [] |} in
  stock_data (snd (add_item (PyStr "pear") (Some (PyInt 0)) None w)) =
    [("pear", 4)] /\
  stock_data (snd (add_item (PyStr "fig") (Some (PyInt 0)) None w)) =
    [("pear", 4); ("fig", 0)].
Proof.
  intros w. split.
  - apply (add_item_zero w "pear" None). discriminate.
  - apply (add_item_zero w "fig" None). discriminate.
Defined.

(** X4: two additions to a name leave the store as one addition of the
    sum does. *)
Theorem add_item_twice (w : world) (name : string) (a b : Z)
    (logs logs' : option (list message)) :
  name <> "" -> 0 <= a -> 0 <= b ->
  stock_data
    (snd (add_item (PyStr name) (Some (PyInt b)) logs'
            (snd (add_item (PyStr name) (Some (PyInt a)) logs w)))) =
  stock_data (snd (add_item (PyStr name) (Some (PyInt (a + b))) logs w)).
Proof.
  intros Hne Ha Hb.
  rewrite (add_item_run _ _ logs w Hne Ha). simpl snd.
  rewrite (add_item_run _ _ logs' _ Hne Hb).
  rewrite (add_item_run name (a + b) logs w Hne) by lia. simpl.
  rewrite DictFacts.get_set_eq, DictMore.set_set. simpl.
  f_equal. lia.
Qed.

Lemma add_item_twice_witness :
  let w := {| stock_data := [("pear", 4)]; fs := no_files; log := [] |} in
  stock_data
    (snd (add_item (PyStr "pear") (Some (PyInt 2)) None
            (snd (add_item (PyStr "pear") (Some (PyInt 1)) None w)))) =
  [("pear", 7)].
Proof.
  intros w.
  apply (add_item_twice w "pear" 1 2 None None); [discriminate | lia | lia].
Defined.

(** X5: adding a positive quantity and removing it again restores the
    store, entry for entry, provided the name was not stored or was
    stored with a positive quantity. *)
Theorem add_then_remove (w : world) (name : string) (n : Z)
    (logs : option (list message)) :
  name <> "" -> 0 < n ->
  (forall q, Dict.get (stock_data w) name = Some q -> 0 < q) ->
  exists w1 w2 l,
    add_item (PyStr name) (Some (PyInt n)) logs w = (Return l, w1) /\
    remove_item (PyStr name) (PyInt n) w1 = (Return tt, w2) /\
    stock_data w2 = stock_data w.
Proof.
  intros Hne Hn Hpos.
  assert (0 <= n) as Hn0 by lia.
  pose proof (add_item_run name n logs w Hne Hn0) as Hadd.
  pose proof (remove_item_run name n
                (default 0 (Dict.get (stock_data w) name) + n)
                (snd (add_item (PyStr name) (Some (PyInt n)) logs w)) Hne Hn)
    as Hrem.
  rewrite Hadd in Hrem. simpl in Hrem.
  specialize (Hrem (DictFacts.get_set_eq _ _ _)).
  destruct (Dict.get (stock_data w) name) as [q|] eqn:Hget; simpl in Hrem.
  - specialize (Hpos q eq_refl).
    destruct (Z.ltb_spec 0 (q + n - n)); [|lia].
    do 3 eexists. split; [exact Hadd|]. split; [exact Hrem|]. simpl.
    rewrite DictMore.set_set. replace (q + n - n) with q by lia.
    now apply DictMore.set_same.
  - destruct (Z.ltb_spec 0 (0 + n - n)); [lia|].
    do 3 eexists. split; [exact Hadd|]. split; [exact Hrem|]. simpl.
    apply DictMore.del_set_fresh. now apply DictFacts.get_None_keys.
Qed.

Lemma add_then_remove_witness :
  let w := {| stock_data := [("pear", 4)]; fs := no_files; log := [] |} in
  exists w1 w2 l,
    add_item (PyStr "fig") (Some (PyInt 2)) None w = (Return l, w1) /\
    remove_item (PyStr "fig") (PyInt 2) w1 = (Return tt, w2) /\
    stock_data w2 = [("pear", 4)].
Proof.
  intros w.
  apply (add_then_remove w "fig" 2 None); [discriminate | lia |].
  intros q. discriminate.
Defined.

(** X6: the iteration order under [remove_item]: while something is left
    of the item, the order is as before; a depleted item leaves the
    order, the others keep theirs. *)
Theorem remove_item_order (w : world) (name : string) (n q : Z) :
  name <> "" -> 0 < n -> Dict.get (stock_data w) name = Some q ->
  Dict.keys (stock_data (snd (remove_item (PyStr name) (PyInt n) w))) =
  if 0 <? q - n then Dict.keys (stock_data w)
  else List.filter (fun k => negb (String.eqb k name)) (Dict.keys (stock_data w)).
Proof.
  intros Hne Hn Hget. rewrite (remove_item_run _ _ _ _ Hne Hn Hget).
  destruct (0 <? q - n); simpl.
  - rewrite DictFacts.keys_set. unfold Dict.mem. now rewrite Hget.
  - apply DictMore.keys_del.
Qed.

Lemma remove_item_order_witness :
  let w := {| stock_data := [("pear", 4); ("fig", 1); ("kiwi", 2)];
              fs := no_files; log := [] |} in
  Dict.keys (stock_data (snd (remove_item (PyStr "fig") (PyInt 1) w))) =
    ["pear"; "kiwi"] /\
  Dict.keys (stock_data (snd (remove_item (PyStr "pear") (PyInt 1) w))) =
    ["pear"; "fig"; "kiwi"].
Proof.
  intros w. split.
  - apply (remove_item_order w "fig" 1 1); [discriminate | lia | reflexivity].
  - apply (remove_item_order w "pear" 1 4); [discriminate | lia | reflexivity].
Defined.

(** ** Reading the store *)

(** X7: in a world reached from the empty store with no file at the
    start, [get_qty] of any non-empty name returns, changes nothing, and
    what it returns is not negative. *)
Theorem get_qty_nonneg (w : world) (name : string) :
  reachable (initial no_files) w -> name <> "" ->
  exists q, get_qty (PyStr name) w = (Return q, w) /\ 0 <= q.
Proof.
  intros Hreach Hne. rewrite (get_qty_run _ _ Hne). eexists. split; [reflexivity|].
  destruct (reachable_inv _ _ initial_inv Hreach) as (_ & Hnn & _).
  destruct (Dict.get (stock_data w) name) as [q|] eqn:Hget; simpl; [|lia].
  exact (nonneg_get _ _ _ Hnn Hget).
Qed.

Lemma get_qty_nonneg_witness :
  let w := snd (run (CallRemove (PyStr "apple") (PyInt 12))
             (snd (run (CallAdd (PyStr "apple") (Some (PyInt 10)) None)
                (initial no_files)))) in
  exists q, get_qty (PyStr "apple") w = (Return q, w) /\ 0 <= q.
Proof.
  intros w. apply (get_qty_nonneg w "apple"); [|discriminate].
  eapply (reach_call _ (CallRemove (PyStr "apple") (PyInt 12))).
  - eapply (reach_call _ (CallAdd (PyStr "apple") (Some (PyInt 10)) None)).
    + apply reach_start.
    + reflexivity.
  - reflexivity.
Defined.

(** X8: [check_low_items] grows with the threshold: it returns on every
    integer threshold without changing anything, a name listed for a
    threshold is listed for every larger one, and every name listed is a
    key of the store. *)
Theorem check_low_items_monotone (w : world) (t1 t2 : Z) :
  t1 <= t2 ->
  exists l1 l2,
    check_low_items (Some (PyInt t1)) w = (Return l1, w) /\
    check_low_items (Some (PyInt t2)) w = (Return l2, w) /\
    incl l1 l2 /\ incl l2 (Dict.keys (stock_data w)).
Proof.
  intros Hle. do 2 eexists. split; [reflexivity|]. split; [reflexivity|].
  split.
  - intros name. rewrite !low_names_In. intros (q & Hin & Hq).
    exists q. split; [exact Hin | lia].
  - intros name. apply low_names_keys.
Qed.

Lemma check_low_items_monotone_witness :
  let w := {| stock_data := [("pear", 4); ("fig", 1); ("kiwi", 9)];
              fs := no_files; log := [] |} in
  exists l1 l2,
    check_low_items (Some (PyInt 2)) w = (Return l1, w) /\
    check_low_items (Some (PyInt 5)) w = (Return l2, w) /\
    incl l1 l2 /\ incl l2 ["pear"; "fig"; "kiwi"].
Proof.
  intros w. apply (check_low_items_monotone w 2 5). lia.
Defined.

(** X9: [print_data] returns, leaves the store and the files alone, and
    logs one header followed by one line per entry, in iteration order,
    all at INFO. *)
Theorem print_data_report (w : world) :
  exists w',
    print_data w = (Return tt, w') /\
    stock_data w' = stock_data w /\ fs w' = fs w /\
    log w' = log w ++ (INFO, ItemsReport) ::
               map (fun kv => (INFO, ReportLine (fst kv) (snd kv)))
                 (Dict.items (stock_data w)) /\
    length (log w') = (length (log w) + 1 + length (stock_data w))%nat.
Proof.
  eexists. split; [apply print_data_log|]. simpl. repeat split.
  rewrite length_app. simpl. rewrite length_map. lia.
Qed.

(** ** Saving *)

(** X10: [save_data] never changes the store.  On a path that cannot be
    written it raises [OSError] after logging an ERROR and leaves every
    file as it was; otherwise it returns after logging at INFO, the file
    at the path holds the encoded store and every other path is as it
    was. *)
Theorem save_data_outcomes (w : world) (file : option string) :
  let f := default default_file file in
  let r := save_data file w in
  stock_data (snd r) = stock_data w /\
  unwritable (fs (snd r)) = unwritable (fs w) /\
  (f ∈ unwritable (fs w) ->
     fst r = Raise OSError /\ files (fs (snd r)) = files (fs w) /\
     log (snd r) = log w ++ [(ERROR, SaveFailed f)]) /\
  (f ∉ unwritable (fs w) ->
     fst r = Return tt /\
     files (fs (snd r)) !! f = Some (Json (json_encode (stock_data w))) /\
     (forall p, p <> f -> files (fs (snd r)) !! p = files (fs w) !! p) /\
     log (snd r) = log w ++ [(INFO, SavedTo f)]).
Proof.
  intros f r. unfold r. rewrite save_data_run. fold f.
  destruct (decide (f ∈ unwritable (fs w))) as [Hin|Hnin]; simpl.
  - repeat split; tauto.
  - split; [reflexivity|]. split; [reflexivity|]. split; [tauto|].
    intros _. split; [reflexivity|]. split; [apply lookup_insert_eq|].
    split; [|reflexivity]. intros p Hp. apply lookup_insert_ne. congruence.
Qed.

(** ** Loading *)

Section LoadingMore.
Implicit Types (d : Dict.t Z) (w : world).

(** The loop of [load_data] raises nothing but the [OverflowError] of
    [int]. *)
Lemma load_entries_raise (xs : list (string * pyval)) (acc : Dict.t Z) w e w' :
  for_each xs load_entry acc w = (Raise e, w') -> e = OverflowError.
Proof.
  revert acc w. induction xs as [|[k v] xs IH]; intros acc w; simpl.
  - discriminate.
  - unfold bind. rewrite load_entry_run.
    destruct (py_int v) as [e0|n] eqn:Hint; [|apply IH].
    destruct (py_int_raises _ _ Hint) as [-> | [-> | ->]]; simpl;
      [apply IH | apply IH | now intros [= <- _]].
Qed.

(** What the loop returns or raises does not depend on the world. *)
Lemma load_entries_same (xs : list (string * pyval)) (acc : Dict.t Z) w1 w2 :
  fst (for_each xs load_entry acc w1) = fst (for_each xs load_entry acc w2).
Proof.
  revert acc w1 w2. induction xs as [|[k v] xs IH]; intros acc w1 w2; simpl.
  - reflexivity.
  - unfold bind. rewrite !load_entry_run.
    destruct (py_int v) as [e0|n]; [|apply IH].
    destruct (existsb (exn_isinstance e0) [TypeError; ValueError]);
      [apply IH | reflexivity].
Qed.

(** [load_data], case by case on what the path holds. *)
Lemma load_data_run (file : option string) w :
  let f := default default_file file in
  load_data file w =
  match files (fs w) !! f with
  | None =>
      (Return tt,
       with_stock Dict.empty (with_log (log w ++ [(WARNING, FileNotFound f)]) w))
  | Some Undecodable => (Raise UnicodeDecodeError, w)
  | Some Malformed =>
      (Raise JSONDecodeError, with_log (log w ++ [(ERROR, ParseFailed f)]) w)
  | Some (Json j) | Some (Lenient j) =>
      match json_decode j with
      | PyDict entries =>
          match for_each entries load_entry Dict.empty w with
          | (Return normalized, w1) =>
              (Return tt,
               with_log (log w1 ++ [(INFO, LoadedFrom f)])
                 (with_stock (Dict.update Dict.empty normalized) w1))
          | (Raise e, w1) => (Raise e, w1)
          end
      | _ => (Raise ValueError, w)
      end
  end.
Proof.
  intros f. unfold load_data, try_except, bind at 1, bind at 1, read_json.
  fold f. destruct (files (fs w) !! f) as [[j|j| |]|]; try reflexivity.
  all: destruct (json_decode j) as [| | | | | |entries]; try reflexivity.
  all: unfold Dict.items.
  all: destruct (for_each entries load_entry Dict.empty w) as [[normalized|e] w1]
         eqn:Hloop; [reflexivity|].
  all: apply load_entries_raise in Hloop; subst e; reflexivity.
Qed.

(** In a dictionary of decoded entries, the accepted ones are assigned
    one after the other to new keys. *)
Lemma coerced_fresh (entries : list (string * pyval)) (acc : Dict.t Z) :
  Dict.wf entries ->
  (forall k, In k (Dict.keys entries) -> ~ In k (Dict.keys acc)) ->
  coerced entries acc =
  acc ++ flat_map (fun kv => match py_int (snd kv) with
                             | inr n => [(fst kv, n)]
                             | inl _ => []
                             end) entries.
Proof.
  rewrite DictFacts.wf_NoDup. revert acc.
  induction entries as [|[k v] rest IH]; simpl; intros acc Hnd Hnew.
  - now rewrite app_nil_r.
  - inversion Hnd as [|? ? Hk Hnd']; subst.
    destruct (py_int v) as [e|n]; simpl.
    + apply IH; [exact Hnd'|]. intros k' Hk'. apply Hnew. now right.
    + rewrite DictFacts.set_fresh by (apply Hnew; now left).
      rewrite IH; [now rewrite <- app_assoc | exact Hnd' |].
      intros k' Hk'. unfold Dict.keys. rewrite map_app, in_app_iff. simpl.
      intros [Hin|[<-|[]]]; [|contradiction].
      apply (Hnew k'); [now right | exact Hin].
Qed.

Lemma keys_accepted (entries : list (string * pyval)) (k : string) :
  In k (Dict.keys (flat_map (fun kv => match py_int (snd kv) with
                                       | inr n => [(fst kv, n)]
                                       | inl _ => []
                                       end) entries)) ->
  In k (Dict.keys entries).
Proof.
  unfold Dict.keys. rewrite !in_map_iff.
  intros [[k' n] [<- Hin]]. apply in_flat_map in Hin.
  destruct Hin as [[k0 v0] [Hin Hkv]]. simpl in Hkv.
  destruct (py_int v0); [destruct Hkv|]. destruct Hkv as [[= <- <-]|[]].
  exists (k0, v0). auto.
Qed.

Lemma accepted_wf (entries : list (string * pyval)) :
  Dict.wf entries ->
  Dict.wf (flat_map (fun kv => match py_int (snd kv) with
                               | inr n => [(fst kv, n)]
                               | inl _ => []
                               end) entries).
Proof.
  rewrite !DictFacts.wf_NoDup.
  induction entries as [|[k v] rest IH]; simpl; intros Hnd; [constructor|].
  inversion Hnd as [|? ? Hk Hnd']; subst.
  destruct (py_int v) as [e|n]; simpl; [auto|].
  constructor; [|auto]. intros Hin. apply Hk. now apply keys_accepted.
Qed.

Lemma get_accepted (entries : list (string * pyval)) (k : string) :
  Dict.wf entries ->
  Dict.get (flat_map (fun kv => match py_int (snd kv) with
                                | inr n => [(fst kv, n)]
                                | inl _ => []
                                end) entries) k =
  coerced_get entries k.
Proof.
  rewrite DictFacts.wf_NoDup. unfold coerced_get.
  induction entries as [|[k0 v0] rest IH]; simpl; intros Hnd; [reflexivity|].
  inversion Hnd as [|? ? Hk Hnd']; subst.
  destruct (py_int v0) as [e|n] eqn:Hint; simpl.
  - destruct (String.eqb_spec k0 k) as [->|Hne]; [|auto].
    rewrite (IH Hnd').
    apply DictFacts.get_None_keys in Hk. now rewrite Hk, Hint.
  - destruct (String.eqb_spec k0 k) as [->|Hne]; [now rewrite Hint | auto].
Qed.

(** [load_data] on an object without infinite floats: the store is the
    sequence of the accepted entries. *)
Lemma load_data_accepted (file : option string) (ms : list (string * json)) w :
  let f := default default_file file in
  let entries :=
    Dict.of_pairs (map (fun kv => (fst kv, json_decode (snd kv))) ms) in
  files (fs w) !! f = Some (Json (JObject ms)) ->
  finite_values entries ->
  exists w',
    load_data file w = (Return tt, w') /\
    stock_data w' =
      flat_map (fun kv => match py_int (snd kv) with
                          | inr n => [(fst kv, n)]
                          | inl _ => []
                          end) entries /\
    log w' = log w ++ skipped entries ++ [(INFO, LoadedFrom f)] /\
    fs w' = fs w.
Proof.
  intros f entries Hfile Hfin.
  assert (Dict.wf entries) as Hwf by apply DictFacts.of_pairs_wf.
  eexists. split; [apply (load_data_finite file ms w Hfile Hfin)|].
  simpl. fold entries. split; [|split; reflexivity].
  rewrite (coerced_fresh entries Dict.empty Hwf) by (intros k _ []).
  simpl. apply DictFacts.update_empty, accepted_wf, Hwf.
Qed.

End LoadingMore.

(** X11: [load_data] is all or nothing.  Whenever it raises, whatever the
    exception (bytes that are not UTF-8, text that the decoder rejects, a
    value that is not an object, an infinite number among the values),
    the store and the files are as before the call; and a missing file
    is never what it raises. *)
Theorem load_data_raise_unchanged (w w' : world) (file : option string)
    (e : exn) :
  load_data file w = (Raise e, w') ->
  stock_data w' = stock_data w /\ fs w' = fs w /\ e <> FileNotFoundError.
Proof.
  rewrite load_data_run.
  destruct (files (fs w) !! default default_file file) as [[j|j| |]|];
    [| | intros [= <- <-]; simpl; repeat split; discriminate
     | intros [= <- <-]; repeat split; discriminate
     | discriminate].
  all: destruct (json_decode j) as [| | | | | |entries];
    try (intros [= <- <-]; repeat split; discriminate).
  all: destruct (for_each entries load_entry Dict.empty w)
         as [[normalized|e0] w1] eqn:Hloop; [discriminate|].
  all: intros [= <- <-].
  all: destruct (load_entries_frame _ _ _ _ _ Hloop) as [-> ->].
  all: apply load_entries_raise in Hloop; subst e0; repeat split; discriminate.
Qed.

Lemma load_data_raise_unchanged_witness :
  let w := {| stock_data := [("pear", 4)];
              fs := {| files := {[ default_file := Json (JString "pears") ]};
                       unwritable := ∅ |};
              log := [] |} in
  stock_data (snd (load_data None w)) = [("pear", 4)] /\
  fs (snd (load_data None w)) = fs w.
Proof.
  intros w.
  destruct (load_data_raise_unchanged w (snd (load_data None w)) None ValueError)
    as (Hs & Hf & _); [reflexivity|].
  split; [exact Hs | exact Hf].
Defined.

(** X12: [load_data] replaces the store wholesale and never writes a
    file: whether it returns or raises, and the store it leaves when it
    returns, depend on the files only, not on what was stored before. *)
Theorem load_data_replaces (w1 w2 : world) (file : option string) :
  fs w1 = fs w2 ->
  fst (load_data file w1) = fst (load_data file w2) /\
  fs (snd (load_data file w1)) = fs w1 /\
  (fst (load_data file w1) = Return tt ->
   stock_data (snd (load_data file w1)) = stock_data (snd (load_data file w2))).
Proof.
  intros Hfs. rewrite !load_data_run, <- Hfs.
  destruct (files (fs w1) !! default default_file file) as [[j|j| |]|];
    [| | simpl; split; [reflexivity|split; [reflexivity|discriminate]]
     | simpl; split; [reflexivity|split; [reflexivity|discriminate]]
     | simpl; auto].
  all: destruct (json_decode j) as [| | | | | |entries];
    try (simpl; split; [reflexivity|split; [reflexivity|discriminate]]).
  all: pose proof (load_entries_same entries Dict.empty w1 w2) as Hsame.
  all: destruct (for_each entries load_entry Dict.empty w1) as [[n1|e1] v1] eqn:H1;
    destruct (for_each entries load_entry Dict.empty w2) as [[n2|e2] v2] eqn:H2;
    simpl in Hsame; try discriminate; injection Hsame as ->; simpl.
  all: destruct (load_entries_frame _ _ _ _ _ H1) as [_ ->]; auto.
  all: split; [reflexivity|]; split; [reflexivity | discriminate].
Qed.

Lemma load_data_replaces_witness :
  let disk := {| files := {[ default_file := Json (JObject [("fig", JInt 2)]) ]};
                 unwritable := ∅ |} in
  let w1 := {| stock_data := [("pear", 4)]; fs := disk; log := [] |} in
  let w2 := {| stock_data := []; fs := disk; log := [] |} in
  stock_data (snd (load_data None w1)) = stock_data (snd (load_data None w2)).
Proof.
  intros disk w1 w2.
  apply (load_data_replaces w1 w2 None); reflexivity.
Defined.

(** X13: on a file that holds a JSON object without infinite numbers,
    and whose strings among the values are ASCII, [load_data] returns,
    and the store is then the sequence of the entries that [int]
    accepts, in the order of the object, each with the [int] of its
    value: under a key, the store has the coerced value, or nothing when
    [int] refuses it.  One WARNING is logged per refused entry, then one
    INFO. *)
Theorem load_data_object (w : world) (file : option string)
    (ms : list (string * json)) :
  let f := default default_file file in
  let entries :=
    Dict.of_pairs (map (fun kv => (fst kv, json_decode (snd kv))) ms) in
  files (fs w) !! f = Some (Json (JObject ms)) ->
  finite_values entries ->
  ascii_values entries ->
  exists w',
    load_data file w = (Return tt, w') /\
    Dict.items (stock_data w') =
      flat_map (fun kv => match py_int (snd kv) with
                          | inr n => [(fst kv, n)]
                          | inl _ => []
                          end) entries /\
    (forall k, Dict.get (stock_data w') k = coerced_get entries k) /\
    log w' = log w ++ skipped entries ++ [(INFO, LoadedFrom f)].
Proof.
  intros f entries Hfile Hfin _.
  destruct (load_data_accepted file ms w Hfile Hfin)
    as (w' & Hrun & Hstock & Hlog & _).
  exists w'. split; [exact Hrun|]. split; [exact Hstock|].
  split; [|exact Hlog].
  intros k. rewrite Hstock. apply get_accepted, DictFacts.of_pairs_wf.
Qed.

(** A file with a number, a numeral in a string, a word and a null. *)
Lemma load_data_object_witness :
  let w := {| stock_data := [("pear", 4)];
              fs := {| files := {[ default_file :=
                         Json (JObject [("fig", JInt 2); ("kiwi", JString " 12 ");
                                        ("plum", JString "many"); ("lime", JNull)]) ]};
                       unwritable := ∅ |};
              log := [] |} in
  exists w',
    load_data None w = (Return tt, w') /\
    Dict.items (stock_data w') = [("fig", 2); ("kiwi", 12)] /\
    log w' = [(WARNING, SkippingItem "plum" (PyStr "many"));
              (WARNING, SkippingItem "lime" PyNone);
              (INFO, LoadedFrom default_file)].
Proof.
  intros w.
  destruct (load_data_object w None
              [("fig", JInt 2); ("kiwi", JString " 12 ");
               ("plum", JString "many"); ("lime", JNull)])
    as (w' & Hrun & Hitems & _ & Hlog); [reflexivity | | |].
  - repeat constructor; discriminate.
  - repeat constructor.
  - exists w'. split; [exact Hrun|]. split; [exact Hitems | exact Hlog].
Defined.

(** C9: [load_data] does not look at the sign of what it reads.  When
    the object in the file gives a negative integer [z] to a key, among
    any other members (none of them an infinite number, on which
    [load_data] raises), the load returns and [z] is stored under the
    key; [get_qty] then returns [z], and [check_low_items] lists the key
    for every threshold above [z]. *)
Theorem load_data_keeps_negative (w : world) (file : option string)
    (ms : list (string * json)) (key : string) (z : Z) :
  let entries :=
    Dict.of_pairs (map (fun kv => (fst kv, json_decode (snd kv))) ms) in
  z < 0 -> key <> "" ->
  files (fs w) !! default default_file file = Some (Json (JObject ms)) ->
  finite_values entries ->
  Dict.get entries key = Some (PyInt z) ->
  exists w',
    load_data file w = (Return tt, w') /\
    In (key, z) (Dict.items (stock_data w')) /\
    get_qty (PyStr key) w' = (Return z, w') /\
    forall t, z < t ->
      exists names,
        check_low_items (Some (PyInt t)) w' = (Return names, w') /\
        In key names.
Proof.
  intros entries Hneg Hkey Hfile Hfin Hget.
  destruct (load_data_accepted file ms w Hfile Hfin)
    as (w' & Hrun & Hstock & _). fold entries in Hstock.
  assert (Dict.get (stock_data w') key = Some z) as Hstored.
  { rewrite Hstock, (get_accepted entries key (DictFacts.of_pairs_wf _)).
    unfold coerced_get. now rewrite Hget. }
  assert (In (key, z) (stock_data w')) as Hin
    by now apply DictFacts.get_In.
  exists w'. split; [exact Hrun|]. split; [exact Hin|]. split.
  - rewrite (get_qty_run _ _ Hkey). now rewrite Hstored.
  - intros t Ht. eexists. split; [reflexivity|].
    apply low_names_In. exists z. split; [exact Hin | exact Ht].
Qed.

(** The file [{"b": 3, "a": -5, "c": "x"}]. *)
Lemma load_data_keeps_negative_witness :
  let w := {| stock_data := [];
              fs := {| files := {[ default_file :=
                         Json (JObject [("b", JInt 3); ("a", JInt (-5));
                                        ("c", JString "x")]) ]};
                       unwritable := ∅ |};
              log := [] |} in
  exists w',
    load_data None w = (Return tt, w') /\
    get_qty (PyStr "a") w' = (Return (-5), w') /\
    exists names,
      check_low_items None w' = (Return names, w') /\ In "a" names.
Proof.
  intros w.
  destruct (load_data_keeps_negative w None
              [("b", JInt 3); ("a", JInt (-5)); ("c", JString "x")] "a" (-5))
    as (w' & Hrun & _ & Hqty & Hlow);
    [lia | discriminate | reflexivity | | reflexivity |].
  - repeat constructor; discriminate.
  - exists w'. split; [exact Hrun|]. split; [exact Hqty|].
    apply (Hlow 5). lia.
Defined.

(** ** What the functions leave alone *)

(** X14: only [save_data] writes files, and only [add_item],
    [remove_item] and [load_data] change the store: whatever the
    arguments and whether they return or raise, [add_item], [remove_item]
    and [load_data] leave the files as they were, [get_qty] and
    [check_low_items] leave the whole world as it was, and [print_data]
    and [save_data] leave the store as it was. *)
Theorem functions_frame (w : world) :
  (forall item qty logs, fs (snd (add_item item qty logs w)) = fs w) /\
  (forall item qty, fs (snd (remove_item item qty w)) = fs w) /\
  (forall file, fs (snd (load_data file w)) = fs w) /\
  (forall item, snd (get_qty item w) = w) /\
  (forall threshold, snd (check_low_items threshold w) = w) /\
  stock_data (snd (print_data w)) = stock_data w /\
  fs (snd (print_data w)) = fs w /\
  (forall file, stock_data (snd (save_data file w)) = stock_data w).
Proof.
  repeat split.
  - intros item qty logs.
    destruct (add_item item qty logs w) as [[r|e] w'] eqn:Hadd; simpl.
    + apply add_item_returns in Hadd. now destruct Hadd as (? & ? & _ & _ & ->).
    + pose proof (add_item_raise_unchanged item qty logs w e) as Hsame.
      rewrite Hadd in Hsame. simpl in *. now rewrite Hsame.
  - intros item qty.
    destruct (remove_item item qty w) as [[[]|e] w'] eqn:Hrem; simpl.
    + apply remove_item_returns in Hrem.
      now destruct Hrem as (? & ? & ? & _ & _ & _ & ->).
    + pose proof (remove_item_raise_unchanged item qty w e) as Hsame.
      rewrite Hrem in Hsame. simpl in *. now rewrite Hsame.
  - intros file. rewrite load_data_run.
    destruct (files (fs w) !! default default_file file) as [[j|j| |]|];
      try reflexivity.
    all: destruct (json_decode j) as [| | | | | |entries]; try reflexivity.
    all: destruct (for_each entries load_entry Dict.empty w) as [[n|e] w1]
           eqn:Hloop;
      simpl; now destruct (load_entries_frame _ _ _ _ _ Hloop) as [_ ->].
  - intros item. unfold get_qty.
    now destruct (as_str item) as [[|c s]|].
  - intros threshold. unfold check_low_items.
    now destruct (as_int (default (PyInt 5) threshold)).
  - now rewrite print_data_log.
  - now rewrite print_data_log.
  - intros file. rewrite save_data_run. now destruct (decide _).
Qed.

(** X15: a saved store can be brought back later.  Once [save_data] has
    returned in a world reached from the empty store, [load_data] on the
    same path restores the store as it was at the save, in any later
    world, whatever is stored then, as long as the file is still the one
    that was written. *)
Theorem saved_store_restored (fs0 : filesystem) (w w1 w2 : world)
    (file : option string) :
  reachable (initial fs0) w ->
  save_data file w = (Return tt, w1) ->
  files (fs w2) !! default default_file file =
    files (fs w1) !! default default_file file ->
  exists w3,
    load_data file w2 = (Return tt, w3) /\ stock_data w3 = stock_data w.
Proof.
  intros Hreach Hsave Hfile.
  assert (Dict.wf (stock_data w)) as Hwf.
  { eapply reachable_wf; [|exact Hreach]. reflexivity. }
  rewrite save_data_run in Hsave.
  destruct (decide _) as [|_]; [discriminate|].
  injection Hsave as <-. simpl in Hfile. rewrite lookup_insert_eq in Hfile.
  eexists. split; [apply (load_data_encoded _ _ _ Hfile Hwf) | reflexivity].
Qed.

(** Ten apples saved; three removed and bananas added afterwards; the
    load brings the ten apples back. *)
Lemma saved_store_restored_witness :
  let w := snd (run (CallAdd (PyStr "apple") (Some (PyInt 10)) None)
             (initial no_files)) in
  let w1 := snd (save_data None w) in
  let w2 := snd (run (CallAdd (PyStr "banana") (Some (PyInt 2)) None)
              (snd (run (CallRemove (PyStr "apple") (PyInt 3)) w1))) in
  stock_data w2 = [("apple", 7); ("banana", 2)] /\
  exists w3,
    load_data None w2 = (Return tt, w3) /\ stock_data w3 = [("apple", 10)].
Proof.
  intros w w1 w2. split; [reflexivity|].
  apply (saved_store_restored no_files w w1 w2 None).
  - eapply (reach_call _ (CallAdd (PyStr "apple") (Some (PyInt 10)) None)).
    + apply reach_start.
    + reflexivity.
  - reflexivity.
  - reflexivity.
Defined.

(** ** The names in the store *)

Section Names.
Implicit Types (d : Dict.t Z) (w : world).

Lemma named_set d (k : string) (v : Z) :
  named d -> k <> "" -> named (Dict.set d k v).
Proof.
  intros Hd Hk. induction Hd as [|[k' v'] d Hx Hd IH]; simpl.
  - repeat constructor. exact Hk.
  - destruct (String.eqb k' k); constructor; auto.
Qed.

Lemma named_del d (k : string) : named d -> named (Dict.del d k).
Proof.
  intros Hd. induction Hd as [|[k' v'] d Hx Hd IH]; simpl; [constructor|].
  destruct (negb (String.eqb k' k)); [constructor|]; auto.
Qed.

Lemma named_get d (k : string) (q : Z) :
  named d -> Dict.get d k = Some q -> k <> "".
Proof.
  intros Hd Hget. apply DictFacts.get_In in Hget.
  unfold named in Hd. rewrite List.Forall_forall in Hd. exact (Hd _ Hget).
Qed.

(** A successful [add_item] was given a non-empty name. *)
Lemma add_item_returns_name (item : pyval) (qty : option pyval)
    (logs : option (list message)) w r w' :
  add_item item qty logs w = (Return r, w') ->
  exists name v,
    name <> "" /\ stock_data w' = Dict.set (stock_data w) name v /\ fs w' = fs w.
Proof.
  unfold add_item.
  destruct (as_str item) as [[|c s]|]; try discriminate.
  destruct (as_int (default (PyInt 0) qty)) as [n|]; try discriminate.
  destruct (n <? 0); [discriminate|].
  unfold bind, get_stock, put_stock, logging, ret. simpl.
  intros [= <- <-]. do 2 eexists. split; [|split; reflexivity]. discriminate.
Qed.

Lemma run_names_inv (c : call) w w' :
  names_inv w -> run c w = (Return tt, w') -> names_inv w'.
Proof.
  intros (Hwf & Hnm & Hfs). destruct c as [item qty logs|item qty|file|file]; simpl.
  - unfold bind at 1.
    destruct (add_item item qty logs w) as [[r|e] w1] eqn:Hadd; [|discriminate].
    intros [= <-]. apply add_item_returns_name in Hadd.
    destruct Hadd as (name & v & Hne & Hstock & Hsame).
    unfold names_inv. rewrite Hstock, Hsame.
    split; [now apply DictFacts.wf_set|]. split; [now apply named_set | exact Hfs].
  - intros Hrem. apply remove_item_returns in Hrem.
    destruct Hrem as (name & n & q & Hn & Hget & Hstock & Hsame).
    unfold names_inv. rewrite Hstock, Hsame.
    destruct (0 <? q - n).
    + split; [now apply DictFacts.wf_set|]. split; [|exact Hfs].
      apply named_set; [exact Hnm | eapply named_get; eauto].
    + split; [now apply DictFacts.wf_del|]. split; [now apply named_del | exact Hfs].
  - rewrite save_data_run.
    destruct (decide _); [discriminate|]. intros [= <-].
    split; [exact Hwf|]. split; [exact Hnm|].
    intros p t. cbn [fs files with_fs with_log].
    rewrite lookup_insert. case_decide.
    + intros [= <-]. eauto.
    + apply Hfs.
  - destruct (files (fs w) !! default default_file file) as [t|] eqn:Hfile.
    + destruct (Hfs _ _ Hfile) as (d & -> & Hd & Hdnm).
      rewrite (load_data_encoded _ _ _ Hfile Hd). intros [= <-].
      split; [exact Hd|]. split; [exact Hdnm | exact Hfs].
    + rewrite (load_absent_run _ _ Hfile). intros [= <-].
      split; [reflexivity|]. split; [constructor | exact Hfs].
Qed.

Lemma initial_names_inv : names_inv (initial no_files).
Proof.
  split; [reflexivity|]. split; [constructor|].
  intros p t. simpl. rewrite lookup_empty. discriminate.
Qed.

End Names.

(** X16: in a world reached from the empty store with no file at the
    start, every stored name is a non-empty string, so that [get_qty]
    accepts it, and [get_qty] returns the quantity stored with it. *)
Theorem stored_names_queryable (w : world) (k : string) (q : Z) :
  reachable (initial no_files) w ->
  In (k, q) (Dict.items (stock_data w)) ->
  k <> "" /\ get_qty (PyStr k) w = (Return q, w).
Proof.
  intros Hreach Hin.
  assert (names_inv w) as (Hwf & Hnm & _).
  { clear Hin. induction Hreach as [|c w w' _ IH Hrun];
      [apply initial_names_inv | eapply run_names_inv; eauto]. }
  assert (k <> "") as Hne.
  { unfold named in Hnm. rewrite List.Forall_forall in Hnm. exact (Hnm _ Hin). }
  split; [exact Hne|].
  rewrite (get_qty_run _ _ Hne), (DictFacts.In_get _ _ _ Hwf Hin). reflexivity.
Qed.

Lemma stored_names_queryable_witness :
  let w := snd (run (CallAdd (PyStr "banana") (Some (PyInt 2)) None)
             (snd (run (CallAdd (PyStr "apple") (Some (PyInt 10)) None)
                (initial no_files)))) in
  "banana" <> "" /\ get_qty (PyStr "banana") w = (Return 2, w).
Proof.
  intros w. apply (stored_names_queryable w "banana" 2).
  - eapply (reach_call _ (CallAdd (PyStr "banana") (Some (PyInt 2)) None)).
    + eapply (reach_call _ (CallAdd (PyStr "apple") (Some (PyInt 10)) None)).
      * apply reach_start.
      * reflexivity.
    + reflexivity.
  - right. now left.
Defined.

(** ** The demonstration *)

Section Demonstration.

Lemma bind_return {A B : Type} (m : M A) (k : A -> M B) (w w' : world) (a : A) :
  m w = (Return a, w') -> bind m k w = k a w'.
Proof. intros H. unfold bind. now rewrite H. Qed.

(** [main] from an empty store, on any disk. *)
Lemma main_from_empty (fs0 : filesystem) :
  main (initial fs0) =
  let stock := [("apple", 7); ("banana", 2)] in
  let before :=
    [(INFO, Added (PyInt 10) "apple"); (INFO, Added (PyInt 2) "banana");
     (INFO, Removed 3 "apple"); (INFO, TriedMissing "orange");
     (INFO, AppleStock 7); (INFO, LowItems ["banana"])] in
  if decide (default_file ∈ unwritable fs0) then
    (Raise OSError,
     {| stock_data := stock; fs := fs0;
        log := before ++ [(ERROR, SaveFailed default_file)] |})
  else
    (Return tt,
     {| stock_data := stock;
        fs := {| files := <[default_file := Json (json_encode stock)]> (files fs0);
                 unwritable := unwritable fs0 |};
        log := before ++
               [(INFO, SavedTo default_file); (INFO, LoadedFrom default_file);
                (INFO, ItemsReport);
                (INFO, ReportLine "apple" 7); (INFO, ReportLine "banana" 2)] |}).
Proof.
  unfold main.
  do 8 (erewrite bind_return by (cbn; reflexivity)).
  unfold bind at 1. rewrite save_data_run.
  cbn [fs stock_data log with_log with_stock with_fs unwritable files initial
       default].
  destruct (decide (default_file ∈ unwritable fs0)); [reflexivity|].
  unfold bind at 1.
  erewrite (load_data_encoded None [("apple", 7); ("banana", 2)]);
    [| apply lookup_insert_eq | reflexivity].
  rewrite print_data_log. reflexivity.
Qed.

End Demonstration.

(** X17: [main], started on an empty store, on any disk.  The store ends
    as seven apples and two bananas, with bananas reported low.  When the
    default file cannot be written, [main] raises the [OSError] of
    [save_data] and no file has changed; otherwise it returns, the
    default file holds the store, whatever it held before, and the load
    that follows the save has brought the same store back. *)
Theorem main_outcome (fs0 : filesystem) :
  let r := main (initial fs0) in
  stock_data (snd r) = [("apple", 7); ("banana", 2)] /\
  In (INFO, LowItems ["banana"]) (log (snd r)) /\
  (default_file ∈ unwritable fs0 ->
     fst r = Raise OSError /\ fs (snd r) = fs0 /\
     In (ERROR, SaveFailed default_file) (log (snd r))) /\
  (default_file ∉ unwritable fs0 ->
     fst r = Return tt /\
     files (fs (snd r)) !! default_file =
       Some (Json (JObject [("apple", JInt 7); ("banana", JInt 2)])) /\
     In (INFO, LoadedFrom default_file) (log (snd r))).
Proof.
  intros r. unfold r. rewrite main_from_empty. cbv zeta.
  destruct (decide (default_file ∈ unwritable fs0)) as [Hin|Hnin]; simpl.
  - split; [reflexivity|]. split; [tauto|]. split; [|tauto].
    intros _. split; [reflexivity|]. split; [reflexivity|]. tauto.
  - split; [reflexivity|]. split; [tauto|]. split; [tauto|].
    intros _. split; [reflexivity|]. split; [apply lookup_insert_eq|]. tauto.
Qed.

(** X18: loading twice is loading once: after a [load_data] that
    returned, a second one on the same path returns too and leaves the
    same store. *)
Theorem load_data_twice (w w1 : world) (file : option string) :
  load_data file w = (Return tt, w1) ->
  exists w2, load_data file w1 = (Return tt, w2) /\ stock_data w2 = stock_data w1.
Proof.
  rewrite (load_data_run file w), (load_data_run file w1).
  destruct (files (fs w) !! default default_file file) as [[j|j| |]|] eqn:Hfile;
    [| | discriminate | discriminate |].
  1, 2:
    (destruct (json_decode j) as [| | | | | |entries] eqn:Hj; try discriminate;
     destruct (for_each entries load_entry Dict.empty w) as [[n|e] v] eqn:Hloop;
       [|discriminate];
     intros [= <-]; simpl;
     destruct (load_entries_frame _ _ _ _ _ Hloop) as [_ Hfs];
     rewrite Hfs, Hfile, Hj;
     match goal with
     | |- context [for_each entries load_entry Dict.empty ?x] =>
         pose proof (load_entries_same entries Dict.empty w x) as Hsame;
         rewrite Hloop in Hsame;
         destruct (for_each entries load_entry Dict.empty x) as [[n'|e] v']
     end; simpl in Hsame; [|discriminate];
     injection Hsame as <-; eexists; split; reflexivity).
  intros [= <-]. simpl. rewrite Hfile. eexists. split; reflexivity.
Qed.

Lemma load_data_twice_witness :
  let w := {| stock_data := [("pear", 4)];
              fs := {| files := {[ default_file :=
                         Json (JObject [("fig", JInt 2); ("lime", JNull)]) ]};
                       unwritable := ∅ |};
              log := [] |} in
  exists w2,
    load_data None (snd (load_data None w)) = (Return tt, w2) /\
    stock_data w2 = [("fig", 2)].
Proof.
  intros w. apply (load_data_twice w (snd (load_data None w)) None). reflexivity.
Defined.
